(** * Indic video annotator: the transcription script [app.py]

    A shallow embedding of the Streamlit script and of the Python
    primitives it relies on, followed by the properties of the script that
    the specification states.

    - Python [str] values are sequences of Unicode code points.
    - Python [float] values are modelled by their exact rational value; the
      IEEE-754 binary64 rounding applied by each arithmetic operation is
      written out ([b64_round]).  NaN, infinities and negative zero are not
      part of the model: timestamps produced by the speech model are finite.
    - The script is a program in a state-and-exception monad over a world
      made of the temporary files on disk, the process-wide
      [st.cache_resource] store, the module namespace of the current run and
      the log of the calls made to Streamlit, the OS, moviepy and whisper. *)

From Stdlib Require Import ZArith NArith QArith Qround Qabs Lia Lqa.
From Stdlib Require Import Ascii String DecimalString.
From stdpp Require Import gmap list strings.

Close Scope Q_scope.
Local Open Scope Z_scope.

(** ** Python strings *)

Module PyStr.

(** A [str] is a list of code points. *)
Definition pystr : Type := list N.

(** Literal of the script, written in ASCII. *)
Definition str (s : string) : pystr :=
  List.map N_of_ascii (list_ascii_of_string s).

(** [str.isspace] on one code point (CPython's [_PyUnicode_IsWhitespace]). *)
Definition is_space (c : N) : bool :=
  ((9 <=? c) && (c <=? 13) || (28 <=? c) && (c <=? 32) || (c =? 133)
   || (c =? 160) || (c =? 5760) || (8192 <=? c) && (c <=? 8202)
   || (c =? 8232) || (c =? 8233) || (c =? 8239) || (c =? 8287)
   || (c =? 12288))%N.

Fixpoint lstrip (s : pystr) : pystr :=
  match s with
  | c :: s' => if is_space c then lstrip s' else s
  | [] => []
  end.

Definition rstrip (s : pystr) : pystr := rev (lstrip (rev s)).

(** [s.strip()] *)
Definition strip (s : pystr) : pystr := rstrip (lstrip s).

(** [s.lower()]; the script lowers language names, which are ASCII. Code
    points outside A-Z are left as they are. *)
Definition lower (s : pystr) : pystr :=
  List.map (fun c => if ((65 <=? c) && (c <=? 90))%N then (c + 32)%N else c) s.

(** [s.replace(old, new)] for one-character [old] and [new]. *)
Definition replace1 (old new : N) (s : pystr) : pystr :=
  List.map (fun c => if (c =? old)%N then new else c) s.

(** [s.startswith(prefix)] *)
Fixpoint starts_with (prefix s : pystr) : bool :=
  match prefix, s with
  | [], _ => true
  | c :: prefix', d :: s' => (c =? d)%N && starts_with prefix' s'
  | _ :: _, [] => false
  end.

(** A lowercase hexadecimal digit. *)
Definition hex_digit (n : N) : N :=
  (if n <? 10 then 48 + n else 87 + n)%N.

(** One character of [repr(s)] between the quotes [q] (CPython's
    [unicode_repr]): the quote and the backslash are escaped, as are tab,
    newline and carriage return; the other characters that are not
    printable are written [\xhh].  Up to U+00FF these are the controls,
    the no-break space and the soft hyphen; above U+00FF every code point
    is taken as printable. *)
Definition repr_char (q c : N) : pystr :=
  (if (c =? q) || (c =? 92) then [92; c]
   else if c =? 9 then [92; 116]
   else if c =? 10 then [92; 110]
   else if c =? 13 then [92; 114]
   else if (c <? 32) || (127 <=? c) && (c <=? 160) || (c =? 173)
        then [92; 120; hex_digit (c / 16); hex_digit (c mod 16)]
   else [c])%N.

(** [repr(s)]: in single quotes, or in double quotes when the string has a
    single quote and no double quote. *)
Definition py_repr (s : pystr) : pystr :=
  let q := if existsb (N.eqb 39) s && negb (existsb (N.eqb 34) s)
           then 34%N else 39%N in
  q :: flat_map (repr_char q) s ++ [q].

(** No ['.'] in the string. *)
Definition no_dot (s : pystr) : Prop := Forall (fun c => c <> 46%N) s.

(** [str(n)] for a non-negative integer. *)
Definition dec (n : Z) : pystr :=
  str (NilZero.string_of_uint (N.to_uint (Z.to_N n))).

(** Left fill with ['0'] up to [width] characters. *)
Definition zfill (width : nat) (s : pystr) : pystr :=
  repeat 48%N (width - length s) ++ s.

(** Exactly [k] decimal digits of [n] (the low ones). *)
Fixpoint fixed_digits (k : nat) (n : Z) : pystr :=
  match k with
  | O => []
  | S k' => fixed_digits k' (n / 10) ++ [Z.to_N (48 + n mod 10)]
  end.

(** [f"{z:0{width}d}"]: sign, then digits zero-filled to the width. *)
Definition format_d (width : nat) (z : Z) : pystr :=
  if z <? 0 then str "-" ++ zfill (width - 1) (dec (- z))
  else zfill width (dec z).

End PyStr.
Export PyStr.

(** ** Python floats *)

Module PyFloat.

Local Open Scope Q_scope.

Definition Qlt_bool (x y : Q) : bool := negb (Qle_bool y x).

(** [2 ^ e] for any integer [e]. *)
Definition pow2 (e : Z) : Q :=
  if (0 <=? e)%Z then inject_Z (2 ^ e) else / inject_Z (2 ^ (- e)).

(** Floor of the binary logarithm of a positive rational. *)
Definition ilog2 (q : Q) : Z :=
  if Qle_bool 1 q then Z.log2 (Qfloor q)
  else (- Z.log2_up (Qceiling (/ q)))%Z.

(** Nearest integer, ties to even. *)
Definition round_half_even (q : Q) : Z :=
  let f := Qfloor q in
  match Qcompare (q - inject_Z f) (1 # 2) with
  | Lt => f
  | Gt => (f + 1)%Z
  | Eq => if Z.even f then f else (f + 1)%Z
  end.

(** Round to the nearest binary64 value, ties to even: 53 significant bits,
    the exponent of the last place never below -1074 (subnormals).  The
    values of this development stay far below the overflow threshold. *)
Definition b64_round (q : Q) : Q :=
  if Qeq_bool q 0 then 0
  else
    let e := (Z.max (ilog2 (Qabs q)) (-1022) - 52)%Z in
    inject_Z (round_half_even (q / pow2 e)) * pow2 e.

(** A decimal literal [num/den] of the source, as the float Python reads. *)
Definition float_lit (num : Z) (den : positive) : Q := b64_round (num # den).

(** Truncation toward zero: [int(x)] on a float. *)
Definition py_int (q : Q) : Z :=
  if Qle_bool 0 q then Qfloor q else Qceiling q.

(** C's [fmod] for a non-zero divisor: exact, with the sign of [x]. *)
Definition fmod (x y : Q) : Q := x - inject_Z (py_int (x / y)) * y.

(** [x % y] on floats: CPython's [float_rem] ([Objects/floatobject.c]),
    for a non-zero divisor (the script divides by the literals 3600 and 60).
    The remainder takes the sign of the divisor. *)
Definition float_rem (vx wx : Q) : Q :=
  let mod0 := fmod vx wx in
  if negb (Qeq_bool mod0 0) then
    if negb (Bool.eqb (Qlt_bool wx 0) (Qlt_bool mod0 0))
    then b64_round (mod0 + wx)
    else mod0
  else 0.

(** [x // y] on floats: CPython's [float_floor_div], the quotient of
    [_float_div_mod], snapped to the nearest integral value. *)
Definition float_floor_div (vx wx : Q) : Q :=
  let mod0 := fmod vx wx in
  let div0 := b64_round (b64_round (vx - mod0) / wx) in
  let dv :=
    if negb (Qeq_bool mod0 0)
       && negb (Bool.eqb (Qlt_bool wx 0) (Qlt_bool mod0 0))
    then b64_round (div0 - 1)
    else div0 in
  if negb (Qeq_bool dv 0) then
    let fl := inject_Z (Qfloor dv) in
    if Qlt_bool (1 # 2) (b64_round (dv - fl)) then b64_round (fl + 1)
    else fl
  else 0.

(** [f"{x:0{width}.{prec}f}"]: the decimal expansion correctly rounded to
    [prec] places, zero-filled after the sign up to [width] characters. *)
Definition format_f (width prec : nat) (x : Q) : pystr :=
  let n := round_half_even (Qabs x * inject_Z (10 ^ Z.of_nat prec)) in
  let ip := (n / 10 ^ Z.of_nat prec)%Z in
  let body :=
    match prec with
    | O => dec ip
    | _ => dec ip ++ str "." ++ fixed_digits prec n
    end in
  if Qlt_bool x 0 then str "-" ++ zfill (width - 1) body
  else zfill width body.

End PyFloat.
Export PyFloat.

(** ** [format_time_srt] (lines 215-220) *)

Definition format_time_srt (seconds : Q) : pystr :=
  let hours := py_int (float_floor_div seconds 3600) in
  let minutes := py_int (float_floor_div (float_rem seconds 3600) 60) in
  let seconds := float_rem seconds 60 in
  replace1 46 44
    (format_d 2 hours ++ str ":" ++ format_d 2 minutes ++ str ":"
     ++ format_f 6 3 seconds).

(** ** Values exchanged with the libraries *)

(** A temporary file is known by its name; a loaded model by its identity. *)
Definition path : Type := nat.
Definition obj : Type := nat.

(** An exception (an instance of [Exception]): class name and [str(e)]. *)
Record exn : Type := Exception { exn_class : string; exn_msg : pystr }.

(** A segment of whisper's result: [segment['start']], [segment['end']],
    [segment['text']]. *)
Record Segment : Type := {
  seg_start : Q;
  seg_end : Q;
  seg_text : pystr
}.

(** The dict returned by [model.transcribe]: [result['text']] and, when the
    key is present, [result['segments']].  Having the key ['text'], the dict
    is never empty, hence always truthy. *)
Record TranscriptionResult : Type := {
  res_text : pystr;
  res_segments : option (list Segment)
}.

(** Keyword arguments of [model.transcribe]; [language = None] would ask
    whisper to detect the language. *)
Record TranscribeArgs : Type := {
  language : option pystr;
  fp16 : bool;
  verbose : option bool
}.

(** What [st.file_uploader] returns when a file was chosen. *)
Record UploadedFile : Type := {
  up_name : pystr;
  up_size : Z;
  up_data : list N
}.

(** One row of [segments_data]. *)
Record Row : Type := { row_time : pystr; row_text : pystr }.

(** The widget values of one run of the script. *)
Record Input : Type := {
  selected_language : pystr;
  model_size : pystr;
  uploaded_file : option UploadedFile;
  start_pressed : bool
}.

(** What moviepy does with the uploaded video (lines 66-70). *)
Inductive ClipBehaviour : Type :=
| ClipOpenRaises (e : exn)        (* [VideoFileClip(video_file)] raises *)
| ClipNoAudio                     (* [video.audio] is [None] *)
| ClipWriteRaises (e : exn)       (* [audio.write_audiofile] raises *)
| ClipVideoCloseRaises (e : exn)  (* [video.close()] raises *)
| ClipAudioCloseRaises (e : exn)  (* [audio.close()] raises *)
| ClipOk.

(** The behaviour of the third-party code during a run. *)
Record Env : Type := {
  moviepy_clip : path -> ClipBehaviour;
  whisper_load_model : pystr -> option exn;   (* [Some e]: raises [e] *)
  model_transcribe : obj -> path -> TranscribeArgs -> exn + TranscriptionResult
}.

(** Every call that leaves the script, in the order of the source. *)
Inductive Event : Type :=
| StSetPageConfig
| StTitle (s : pystr)
| StMarkdown (s : pystr)
| StSidebarHeader (s : pystr)
| StSidebarSelectbox (label : pystr) (options : list pystr)
| StFileUploader (label : pystr) (types : list pystr)
| StVideo (name : pystr)
| StColumns (n : nat)
| StWrite (s : pystr)
| StButton (label : pystr)
| StProgress (n : Z)                (* [progress_bar = st.progress(n)] *)
| StEmpty                           (* [status_text = st.empty()] *)
| ProgressBarProgress (n : Z)       (* [progress_bar.progress(n)] *)
| ProgressBarEmpty                  (* [progress_bar.empty()] *)
| StatusTextText (s : pystr)        (* [status_text.text(s)] *)
| StatusTextEmpty                   (* [status_text.empty()] *)
| StError (s : pystr)
| StSuccess (s : pystr)
| StSubheader (s : pystr)
| StTextArea (label value : pystr)
| StDataframe (rows : list Row)
| StDownloadButton (label data file_name mime : pystr)
| OsTempFile (p : path) (suffix : pystr)
| OsWrite (p : path) (data : list N)
| OsUnlink (p : path)
| MoviepyOpen (video_file : path)
| MoviepyWriteAudio (out : path)
| MoviepyVideoClose
| MoviepyAudioClose
| WhisperLoadModel (name : pystr)
| WhisperTranscribe (model : obj) (audio : path) (args : TranscribeArgs).

(** ** The world *)

Record World : Type := mkWorld {
  files : gset path;        (* temporary files on disk *)
  cache : gmap pystr obj;   (* the [st.cache_resource] store of the process *)
  next_obj : obj;           (* identity of the next object allocated *)
  globals : gset string;    (* names bound in the module namespace *)
  log : list Event          (* calls of this run, most recent first *)
}.

Definition set_files (fs : gset path) (w : World) : World :=
  mkWorld fs (cache w) (next_obj w) (globals w) (log w).
Definition set_cache (c : gmap pystr obj) (w : World) : World :=
  mkWorld (files w) c (next_obj w) (globals w) (log w).
Definition set_next_obj (n : obj) (w : World) : World :=
  mkWorld (files w) (cache w) n (globals w) (log w).
Definition set_globals (g : gset string) (w : World) : World :=
  mkWorld (files w) (cache w) (next_obj w) g (log w).
Definition set_log (l : list Event) (w : World) : World :=
  mkWorld (files w) (cache w) (next_obj w) (globals w) l.

(** The process at start: nothing on disk, nothing cached. *)
Definition initial_world : World := mkWorld ∅ ∅ 0%nat ∅ [].

(** ** Statements: state and exceptions *)

Definition M (A : Type) : Type := World -> World * (exn + A).

Definition ret {A} (a : A) : M A := fun w => (w, inr a).

Definition bind {A B} (m : M A) (k : A -> M B) : M B :=
  fun w =>
    match m w with
    | (w', inr a) => k a w'
    | (w', inl e) => (w', inl e)
    end.

Definition raise {A} (e : exn) : M A := fun w => (w, inl e).

(** [try: body  except Exception as e: handler] *)
Definition try_except {A} (body : M A) (handler : exn -> M A) : M A :=
  fun w =>
    match body w with
    | (w', inl e) => handler e w'
    | r => r
    end.

Declare Scope py_scope.
Delimit Scope py_scope with py.
Notation "x <- m ;; k" := (bind m (fun x => k))
  (at level 100, m at next level, right associativity) : py_scope.
Notation "m ;; k" := (bind m (fun _ => k))
  (at level 100, right associativity) : py_scope.
Local Open Scope py_scope.

Definition emit (ev : Event) : M unit :=
  fun w => (set_log (ev :: log w) w, inr tt).

(** [def name(...)]: binds the name in the module namespace. *)
Definition def (name : string) : M unit :=
  fun w => (set_globals ({[name]} ∪ globals w) w, inr tt).

Definition name_error (name : string) : exn :=
  Exception "NameError" (str "name '" ++ str name ++ str "' is not defined").

(** A call through a global name; the lookup fails with [NameError] when
    no [def] for it has run yet. *)
Definition call_global {A} (name : string) (body : M A) : M A :=
  fun w =>
    if bool_decide (name ∈ globals w) then body w
    else (w, inl (name_error name)).

(** [tempfile.NamedTemporaryFile(delete=False, suffix=...)]: a new file
    under a name not in use.  The operating system is taken to have room
    for it: the [OSError] of a full or read-only disk, here and in the
    write of line 121, is not part of this model. *)
Definition named_temporary_file (suffix : pystr) : M path :=
  fun w =>
    let p := fresh (files w) in
    (set_log (OsTempFile p suffix :: log w) (set_files ({[p]} ∪ files w) w),
     inr p).

Definition os_path_exists (p : path) : M bool :=
  fun w => (w, inr (bool_decide (p ∈ files w))).

Definition os_unlink (p : path) : M unit :=
  fun w =>
    if bool_decide (p ∈ files w)
    then (set_log (OsUnlink p :: log w) (set_files (files w ∖ {[p]}) w), inr tt)
    else (w, inl (Exception "FileNotFoundError" (str "No such file or directory"))).

Fixpoint take_while {A} (f : A -> bool) (l : list A) : list A :=
  match l with
  | x :: l' => if f x then x :: take_while f l' else []
  | [] => []
  end.

(** [os.path.splitext(name)[1]]: from the last dot of the last path
    component, unless only dots precede it in that component. *)
Definition splitext_ext (name : pystr) : pystr :=
  let not_sep := fun c : N => negb (c =? 47)%N in
  let not_dot := fun c : N => negb (c =? 46)%N in
  let base := rev (take_while not_sep (rev name)) in
  let ext_rev := take_while not_dot (rev base) in
  let stem := rev (drop (S (length ext_rev)) (rev base)) in
  if (length ext_rev <? length base)%nat && existsb not_dot stem
  then 46%N :: rev ext_rev
  else [].

(** ** The script *)

Definition nl : pystr := [10%N].

(** [INDIC_LANGUAGES] (lines 25-38), in insertion order. *)
Definition INDIC_LANGUAGES : list (pystr * pystr) :=
  [ (str "Hindi", str "hi"); (str "Bengali", str "bn");
    (str "Tamil", str "ta"); (str "Telugu", str "te");
    (str "Marathi", str "mr"); (str "Gujarati", str "gu");
    (str "Kannada", str "kn"); (str "Malayalam", str "ml");
    (str "Punjabi", str "pa"); (str "Urdu", str "ur");
    (str "Assamese", str "as"); (str "Nepali", str "ne") ].

Definition MODEL_SIZES : list pystr :=
  [str "tiny"; str "base"; str "small"; str "medium"; str "large"].

Definition UPLOAD_TYPES : list pystr :=
  [str "mp4"; str "avi"; str "mov"; str "mkv"; str "wmv"; str "flv";
   str "webm"].

Fixpoint assoc (k : pystr) (d : list (pystr * pystr)) : option pystr :=
  match d with
  | (k', v) :: d' => if decide (k = k') then Some v else assoc k d'
  | [] => None
  end.

(** [d[k]]: [KeyError] when the key is absent; [str(e)] of a [KeyError]
    is the [repr] of the key. *)
Definition getitem (d : list (pystr * pystr)) (k : pystr) : M pystr :=
  match assoc k d with
  | Some v => ret v
  | None => raise (Exception "KeyError" (py_repr k))
  end.

Section Script.

Variable env : Env.

(** *** Model Loader (lines 54-57) *)

(** [whisper.load_model(model_name)]: a new model object, or an exception. *)
Definition whisper_load (model_name : pystr) : M obj :=
  emit (WhisperLoadModel model_name);;
  match whisper_load_model env model_name with
  | Some e => raise e
  | None => fun w => (set_next_obj (S (next_obj w)) w, inr (next_obj w))
  end.

(** [@st.cache_resource]: the object returned for an argument is stored
    and handed out again, as it is, on every later call with that argument;
    a call that raises stores nothing. *)
Definition cache_resource (f : pystr -> M obj) (arg : pystr) : M obj :=
  fun w =>
    match cache w !! arg with
    | Some m => (w, inr m)
    | None =>
        match f arg w with
        | (w', inr m) => (set_cache (<[arg := m]> (cache w')) w', inr m)
        | r => r
        end
    end.

Definition load_whisper_model (model_name : pystr) : M obj :=
  cache_resource whisper_load model_name.

(** *** Audio Extractor (lines 59-74) *)

(** Lines 66-70. *)
Definition write_audio (video_file temp_audio_path : path) : M unit :=
  emit (MoviepyOpen video_file);;
  match moviepy_clip env video_file with
  | ClipOpenRaises e => raise e
  | ClipNoAudio =>
      raise (Exception "AttributeError"
               (str "'NoneType' object has no attribute 'write_audiofile'"))
  | ClipWriteRaises e => emit (MoviepyWriteAudio temp_audio_path);; raise e
  | ClipVideoCloseRaises e =>
      emit (MoviepyWriteAudio temp_audio_path);; emit MoviepyVideoClose;;
      raise e
  | ClipAudioCloseRaises e =>
      emit (MoviepyWriteAudio temp_audio_path);; emit MoviepyVideoClose;;
      emit MoviepyAudioClose;; raise e
  | ClipOk =>
      emit (MoviepyWriteAudio temp_audio_path);; emit MoviepyVideoClose;;
      emit MoviepyAudioClose
  end.

Definition extract_audio_from_video (video_file : path) : M (option path) :=
  temp_audio_path <- named_temporary_file (str ".wav");;
  try_except
    (write_audio video_file temp_audio_path;;
     ret (Some temp_audio_path))
    (fun e =>
       emit (StError (str "Error extracting audio: " ++ exn_msg e));;
       ret None).

(** *** Transcriber (lines 76-88) *)

(** [model.transcribe(audio_path, **args)] *)
Definition transcribe_call (model : obj) (audio_path : path)
    (args : TranscribeArgs) : M TranscriptionResult :=
  emit (WhisperTranscribe model audio_path args);;
  match model_transcribe env model audio_path args with
  | inl e => raise e
  | inr result => ret result
  end.

Definition transcribe_audio (audio_path : path) (model : obj)
    (language_code : pystr) : M (option TranscriptionResult) :=
  try_except
    (result <- transcribe_call model audio_path
                 {| language := Some language_code;
                    fp16 := false;
                    verbose := Some false |};;
     ret (Some result))
    (fun e =>
       emit (StError (str "Error during transcription: " ++ exn_msg e));;
       ret None).

(** *** Result Presenter (lines 145-202) *)

(** [f"{int(t // 60):02d}:{int(t % 60):02d}"] (lines 166-167). *)
Definition format_mm_ss (t : Q) : pystr :=
  format_d 2 (py_int (float_floor_div t 60)) ++ str ":"
  ++ format_d 2 (py_int (float_rem t 60)).

(** Lines 164-171. *)
Definition segments_data (segs : list Segment) : list Row :=
  List.map
    (fun segment =>
       {| row_time := format_mm_ss (seg_start segment) ++ str " - "
                      ++ format_mm_ss (seg_end segment);
          row_text := strip (seg_text segment) |})
    segs.

(** One block of the subtitle file (line 195). *)
Definition srt_block (i : Z) (start_time end_time text : pystr) : pystr :=
  dec i ++ nl ++ start_time ++ str " --> " ++ end_time ++ nl
  ++ strip text ++ nl ++ nl.

(** The loop of lines 192-195; [i] is the counter of [enumerate]. *)
Fixpoint srt_loop (i : Z) (segs : list Segment) (srt_content : pystr)
    : M pystr :=
  match segs with
  | [] => ret srt_content
  | segment :: rest =>
      start_time <- call_global "format_time_srt"
                      (ret (format_time_srt (seg_start segment)));;
      end_time <- call_global "format_time_srt"
                    (ret (format_time_srt (seg_end segment)));;
      srt_loop (i + 1) rest
        (srt_content
         ++ srt_block i start_time end_time (seg_text segment))
  end.

Definition present (inp : Input) (result : TranscriptionResult) : M unit :=
  emit (ProgressBarProgress 100);;
  emit (StatusTextText (9989%N :: str " Transcription completed!"));;
  emit (StSuccess (str "Transcription completed successfully!"));;
  emit (StSubheader (128221%N :: str " Full Transcription"));;
  emit (StTextArea (str "Transcribed Text") (res_text result));;
  match res_segments result with
  | Some segs =>
      emit (StSubheader (9200%N :: str " Timestamped Segments"));;
      emit (StDataframe (segments_data segs))
  | None => ret tt
  end;;
  emit (StSubheader (128190%N :: str " Download Options"));;
  emit (StColumns 2);;
  emit (StDownloadButton (128196%N :: str " Download as TXT")
          (res_text result)
          (str "transcription_" ++ lower (selected_language inp) ++ str ".txt")
          (str "text/plain"));;
  match res_segments result with
  | Some segs =>
      srt_content <- srt_loop 1 segs [];;
      emit (StDownloadButton (127916%N :: str " Download as SRT")
              srt_content
              (str "subtitles_" ++ lower (selected_language inp) ++ str ".srt")
              (str "text/plain"))
  | None => ret tt
  end.

(** *** The body of the [try] (lines 116-208) *)

Definition pipeline (inp : Input) (up : UploadedFile) : M unit :=
  emit (StatusTextText (128193%N :: str " Saving video file..."));;
  emit (ProgressBarProgress 10);;
  temp_video_path <- named_temporary_file (splitext_ext (up_name up));;
  emit (OsWrite temp_video_path (up_data up));;
  emit (StatusTextText (127925%N :: str " Extracting audio from video..."));;
  emit (ProgressBarProgress 30);;
  audio_path <- call_global "extract_audio_from_video"
                  (extract_audio_from_video temp_video_path);;
  match audio_path with
  | Some audio_path =>
      emit (StatusTextText (129302%N :: str " Loading AI model..."));;
      emit (ProgressBarProgress 50);;
      model <- call_global "load_whisper_model"
                 (load_whisper_model (model_size inp));;
      emit (StatusTextText (127919%N :: str " Transcribing audio..."));;
      emit (ProgressBarProgress 70);;
      language_code <- getitem INDIC_LANGUAGES (selected_language inp);;
      result <- call_global "transcribe_audio"
                  (transcribe_audio audio_path model language_code);;
      match result with
      | Some result => present inp result
      | None => ret tt
      end;;
      (* Cleanup temporary files *)
      video_exists <- os_path_exists temp_video_path;;
      (if video_exists then os_unlink temp_video_path else ret tt);;
      audio_exists <- os_path_exists audio_path;;
      (if audio_exists then os_unlink audio_path else ret tt)
  | None => ret tt
  end.

(** *** Lines 111-213: the button and the outer handler *)

Definition transcription (inp : Input) (up : UploadedFile) : M unit :=
  emit (StProgress 0);;
  emit StEmpty;;
  try_except
    (pipeline inp up)
    (fun e =>
       emit (StError (str "An error occurred: " ++ exn_msg e));;
       emit ProgressBarEmpty;;
       emit StatusTextEmpty).

(** *** The module, top to bottom (lines 10-232) *)

Definition footer : pystr :=
  nl ++ str "    <div style='text-align: center'>" ++ nl
  ++ str "        <p>Built with " ++ [10084%N; 65039%N]
  ++ str " using Streamlit and OpenAI Whisper</p>" ++ nl
  ++ str "        <p><em>Supports 12+ Indian languages with high accuracy</em></p>"
  ++ nl ++ str "    </div>" ++ nl ++ str "    ".

Definition script (inp : Input) : M unit :=
  emit StSetPageConfig;;
  emit (StTitle (127916%N :: str " Video to Text Converter for Indic Languages"));;
  emit (StMarkdown
          (str "Convert your videos to text in multiple Indian languages using AI"));;
  emit (StSidebarHeader (str "Settings"));;
  emit (StSidebarSelectbox (str "Select Language") (List.map fst INDIC_LANGUAGES));;
  emit (StSidebarSelectbox (str "Select Model Size") MODEL_SIZES);;
  def "load_whisper_model";;
  def "extract_audio_from_video";;
  def "transcribe_audio";;
  emit (StFileUploader (str "Upload a video file") UPLOAD_TYPES);;
  match uploaded_file inp with
  | Some up =>
      emit (StVideo (up_name up));;
      emit (StColumns 2);;
      emit (StWrite (str "**File name:** " ++ up_name up));;
      emit (StWrite
              (str "**File size:** "
               ++ format_f 0 2 (b64_round (inject_Z (up_size up) / 1048576))
               ++ str " MB"));;
      emit (StWrite (str "**Selected language:** " ++ selected_language inp));;
      emit (StWrite (str "**Model size:** " ++ model_size inp));;
      emit (StButton (128640%N :: str " Start Transcription"));;
      if start_pressed inp then transcription inp up else ret tt
  | None => ret tt
  end;;
  def "format_time_srt";;
  emit (StMarkdown (str "---"));;
  emit (StMarkdown footer).

(** One run of the script.  Streamlit executes the file from the top in a
    new module, on a page redrawn from scratch; the files on disk and the
    resource cache are those the process has at that moment. *)
Definition run_script (inp : Input) (w : World) : World * (exn + unit) :=
  script inp (set_log [] (set_globals ∅ w)).

End Script.

(** The namespace when the block of the button runs: the three [def]s
    above it (lines 55, 59 and 76). *)
Definition main_globals : gset string :=
  {["transcribe_audio"]}
  ∪ ({["extract_audio_from_video"]} ∪ ({["load_whisper_model"]} ∪ ∅)).

(** ** What the user sees after a run *)

(** State of a placeholder widget. *)
Inductive Placeholder (A : Type) : Type :=
| Absent          (* never created *)
| Showing (a : A)
| Cleared.        (* [.empty()] was called *)
Arguments Absent {A}.
Arguments Showing {A} a.
Arguments Cleared {A}.

(** The progress bar, from the log (most recent call first). *)
Fixpoint progress_bar (l : list Event) : Placeholder Z :=
  match l with
  | ProgressBarEmpty :: _ => Cleared
  | ProgressBarProgress n :: _ => Showing n
  | StProgress n :: _ => Showing n
  | _ :: l' => progress_bar l'
  | [] => Absent
  end.

(** The status line; [st.empty()] creates it with nothing in it. *)
Fixpoint status_text (l : list Event) : Placeholder pystr :=
  match l with
  | StatusTextEmpty :: _ => Cleared
  | StatusTextText s :: _ => Showing s
  | StEmpty :: _ => Cleared
  | _ :: l' => status_text l'
  | [] => Absent
  end.

Definition is_error (ev : Event) : bool :=
  match ev with StError _ => true | _ => false end.

(** The error banners shown. *)
Definition error_banners (l : list Event) : list Event := List.filter is_error l.

(** The elements rendered by the Result Presenter: the text area, the
    segment table and the download buttons. *)
Definition is_result_element (ev : Event) : bool :=
  match ev with
  | StTextArea _ _ | StDataframe _ | StDownloadButton _ _ _ _ => true
  | _ => false
  end.

(** The content of the subtitle download, when the button was rendered. *)
Fixpoint srt_artifact (l : list Event) : option pystr :=
  match l with
  | StDownloadButton label data _ _ :: l' =>
      if decide (label = 127916%N :: str " Download as SRT") then Some data
      else srt_artifact l'
  | _ :: l' => srt_artifact l'
  | [] => None
  end.

(** An error banner whose message starts with [prefix]. *)
Definition is_banner (prefix : pystr) (ev : Event) : bool :=
  match ev with StError s => starts_with prefix s | _ => false end.

(** The three kinds of failure the user can tell apart, by the banner of
    the handler that caught the exception (lines 73, 87 and 211). *)
Definition extraction_failed (l : list Event) : bool :=
  existsb (is_banner (str "Error extracting audio: ")) l.
Definition transcription_failed (l : list Event) : bool :=
  existsb (is_banner (str "Error during transcription: ")) l.
Definition outer_handler_fired (l : list Event) : bool :=
  existsb (is_banner (str "An error occurred: ")) l.

(** The inference calls and the model loads made during the run. *)
Fixpoint transcribe_calls (l : list Event)
    : list (obj * path * TranscribeArgs) :=
  match l with
  | WhisperTranscribe m p a :: l' => (m, p, a) :: transcribe_calls l'
  | _ :: l' => transcribe_calls l'
  | [] => []
  end.

Fixpoint load_calls (l : list Event) : list pystr :=
  match l with
  | WhisperLoadModel name :: l' => name :: load_calls l'
  | _ :: l' => load_calls l'
  | [] => []
  end.

(** The temporary files created during the run. *)
Fixpoint created_files (l : list Event) : list path :=
  match l with
  | OsTempFile p _ :: l' => p :: created_files l'
  | _ :: l' => created_files l'
  | [] => []
  end.

(** ** The process over several runs *)

Fixpoint runs (rs : list (Env * Input)) (w : World) : World :=
  match rs with
  | [] => w
  | (env, inp) :: rs' => runs rs' (run_script env inp w).1
  end.

(** The resource cache of a process: the objects it holds have been
    allocated, and no object is held under two arguments. *)
Definition cache_wf (w : World) : Prop :=
  (forall k m, cache w !! k = Some m -> (m < next_obj w)%nat)
  /\ (forall k k' m,
        cache w !! k = Some m -> cache w !! k' = Some m -> k = k').

(** ** The specification's side *)

(** The time format of the specification (section 4.5), on the exact value
    of the time: hours, minutes, and the remaining seconds rounded to the
    millisecond, two digits each and three for the milliseconds. *)
Definition srt_time_spec (x : Q) : pystr :=
  let hours := Qfloor (x / 3600) in
  let minutes := Qfloor ((x - inject_Z (3600 * hours)) / 60) in
  let millis :=
    round_half_even ((x - inject_Z (60 * Qfloor (x / 60))) * 1000) in
  zfill 2 (dec hours) ++ str ":" ++ zfill 2 (dec minutes) ++ str ":"
  ++ zfill 2 (dec (millis / 1000)) ++ str "," ++ fixed_digits 3 millis.

(** The blocks of the subtitle file of the specification: numbered from
    [i], in segment order. *)
Fixpoint srt_blocks (i : Z) (segs : list Segment) : list pystr :=
  match segs with
  | [] => []
  | s :: rest =>
      srt_block i (format_time_srt (seg_start s)) (format_time_srt (seg_end s))
        (seg_text s)
      :: srt_blocks (i + 1) rest
  end.

(** ** Scenarios *)

(** Concrete runs used to exhibit behaviours of the script: a Hindi
    transcription of [clip.mp4] with the [small] model, on a process that
    has just started. *)
Module Scenario.

Definition input : Input :=
  {| selected_language := str "Hindi";
     model_size := str "small";
     uploaded_file :=
       Some {| up_name := str "clip.mp4"; up_size := 1048577;
               up_data := [0; 0; 0; 24]%N |};
     start_pressed := true |}.

Definition transcribe_args : TranscribeArgs :=
  {| language := Some (str "hi"); fp16 := false; verbose := Some false |}.

(** One segment of speech, from 0.0 s to 1.5 s. *)
Definition namaste : Segment :=
  {| seg_start := float_lit 0 1; seg_end := float_lit 15 10;
     seg_text := str " namaste" |}.

Definition one_segment : TranscriptionResult :=
  {| res_text := str " namaste"; res_segments := Some [namaste] |}.

(** What whisper returns for a silent track. *)
Definition silence : TranscriptionResult :=
  {| res_text := []; res_segments := Some [] |}.

Definition env_returning (result : TranscriptionResult) : Env :=
  {| moviepy_clip := fun _ => ClipOk;
     whisper_load_model := fun _ => None;
     model_transcribe := fun _ _ _ => inr result |}.

(** The video has no audio track. *)
Definition env_no_audio : Env :=
  {| moviepy_clip := fun _ => ClipNoAudio;
     whisper_load_model := fun _ => None;
     model_transcribe := fun _ _ _ => inr silence |}.

Definition out_of_memory : exn :=
  Exception "RuntimeError" (str "out of memory").

(** Inference fails. *)
Definition env_inference_error : Env :=
  {| moviepy_clip := fun _ => ClipOk;
     whisper_load_model := fun _ => None;
     model_transcribe := fun _ _ _ => inl out_of_memory |}.

End Scenario.

(** ** Further observations and scenarios *)

(** A call that leaves the Streamlit page: OS, moviepy or whisper. *)
Definition is_external (ev : Event) : bool :=
  match ev with
  | OsTempFile _ _ | OsWrite _ _ | OsUnlink _
  | MoviepyOpen _ | MoviepyWriteAudio _ | MoviepyVideoClose
  | MoviepyAudioClose | WhisperLoadModel _ | WhisperTranscribe _ _ _ => true
  | _ => false
  end.

(** The videos opened with moviepy during the run. *)
Fixpoint open_calls (l : list Event) : list path :=
  match l with
  | MoviepyOpen video_file :: l' => video_file :: open_calls l'
  | _ :: l' => open_calls l'
  | [] => []
  end.

(** The exception on which lines 66-70 end, if any. *)
Definition clip_error (b : ClipBehaviour) : option exn :=
  match b with
  | ClipOpenRaises e | ClipWriteRaises e | ClipVideoCloseRaises e
  | ClipAudioCloseRaises e => Some e
  | ClipNoAudio =>
      Some (Exception "AttributeError"
              (str "'NoneType' object has no attribute 'write_audiofile'"))
  | ClipOk => None
  end.

(** [video.close()] or [audio.close()]. *)
Definition is_close (ev : Event) : bool :=
  match ev with MoviepyVideoClose | MoviepyAudioClose => true | _ => false end.

(** The values given to the progress bar, most recent first. *)
Fixpoint progress_history (l : list Event) : list Z :=
  match l with
  | StProgress n :: l' => n :: progress_history l'
  | ProgressBarProgress n :: l' => n :: progress_history l'
  | _ :: l' => progress_history l'
  | [] => []
  end.

(** The values given to the progress bar, in the order of the run. *)
Definition progress_values (l : list Event) : list Z :=
  rev (progress_history l).

(** Something of the Result Presenter was rendered. *)
Definition presented (l : list Event) : bool := existsb is_result_element l.

(** Only whitespace. *)
Definition all_space (s : pystr) : Prop :=
  Forall (fun c => is_space c = true) s.

(** The first character, if any, is not whitespace. *)
Definition starts_clean (s : pystr) : Prop :=
  match s with c :: _ => is_space c = false | [] => True end.

(** ['0'] to ['9']. *)
Definition is_digit (c : N) : Prop := (48 <= c <= 57)%N.

Definition all_digits (s : pystr) : Prop := Forall is_digit s.

Module Variant.

(** The page before any file is chosen. *)
Definition no_upload : Input :=
  {| selected_language := str "Hindi";
     model_size := str "small";
     uploaded_file := None;
     start_pressed := false |}.

(** [whisper.load_model] fails. *)
Definition env_load_error : Env :=
  {| moviepy_clip := fun _ => ClipOk;
     whisper_load_model := fun _ => Some Scenario.out_of_memory;
     model_transcribe := fun _ _ _ => inr Scenario.silence |}.

(** A result without the key ['segments']. *)
Definition text_only : TranscriptionResult :=
  {| res_text := str " namaste"; res_segments := None |}.

(** A namespace in which line 215 has run. *)
Definition world_with_format_time_srt : World :=
  set_globals {["format_time_srt"]} initial_world.

End Variant.

(** * Properties *)

(** ** Rounding and the float operations *)

Module FloatFacts.
Local Open Scope Q_scope.

Lemma Qlt_bool_iff x y : Qlt_bool x y = true <-> x < y.
Proof.
  unfold Qlt_bool. rewrite negb_true_iff.
  destruct (Qle_bool y x) eqn:E.
  - apply Qle_bool_iff in E. split; [discriminate | intros H; exfalso; lra].
  - split; [intros _ | reflexivity].
    apply Qnot_le_lt. intros H. apply Qle_bool_iff in H. congruence.
Qed.

Lemma Qlt_bool_false x y : y <= x -> Qlt_bool x y = false.
Proof.
  intros H. destruct (Qlt_bool x y) eqn:E; [|reflexivity].
  apply Qlt_bool_iff in E. lra.
Qed.

#[global] Instance Qlt_bool_comp : Proper (Qeq ==> Qeq ==> eq) Qlt_bool.
Proof. intros x x' Hx y y' Hy. unfold Qlt_bool. now rewrite Hx, Hy. Qed.

#[global] Instance round_half_even_comp : Proper (Qeq ==> eq) round_half_even.
Proof.
  intros x y H. unfold round_half_even.
  rewrite (Qfloor_comp x y H).
  rewrite (Qcompare_comp (x - inject_Z (Qfloor y)) (y - inject_Z (Qfloor y))
             ltac:(now rewrite H) (1 # 2) (1 # 2) ltac:(reflexivity)).
  reflexivity.
Qed.

#[global] Instance ilog2_comp : Proper (Qeq ==> eq) ilog2.
Proof.
  intros x y H. unfold ilog2.
  rewrite (Qleb_comp 1 1 ltac:(reflexivity) x y H).
  destruct (Qle_bool 1 y); now rewrite H.
Qed.

#[global] Instance b64_round_comp : Proper (Qeq ==> Qeq) b64_round.
Proof.
  intros x y H. unfold b64_round.
  rewrite (Qeqb_comp x y H 0 0 ltac:(reflexivity)).
  destruct (Qeq_bool y 0); [reflexivity|].
  cbv zeta. rewrite (ilog2_comp (Qabs x) (Qabs y)) by now rewrite H.
  now rewrite H.
Qed.

#[global] Instance py_int_comp : Proper (Qeq ==> eq) py_int.
Proof.
  intros x y H. unfold py_int.
  rewrite (Qleb_comp 0 0 ltac:(reflexivity) x y H).
  destruct (Qle_bool 0 y); now rewrite H.
Qed.

Lemma round_half_even_Z (m : Z) : round_half_even (inject_Z m) = m.
Proof.
  unfold round_half_even. rewrite Qfloor_Z.
  assert (E : inject_Z m - inject_Z m == 0) by ring.
  rewrite (Qcompare_comp _ _ E (1 # 2) (1 # 2) ltac:(reflexivity)).
  reflexivity.
Qed.

Lemma b64_round_0 : b64_round 0 = 0.
Proof. reflexivity. Qed.

Lemma inject_Z_pos (n : Z) : (0 < n)%Z -> 0 < inject_Z n.
Proof. intros H. change 0 with (inject_Z 0). now rewrite <- Zlt_Qlt. Qed.

(** Integers below [2^53] are binary64 values. *)
Lemma b64_round_Z (n : Z) :
  (0 <= n < 2 ^ 53)%Z -> b64_round (inject_Z n) == inject_Z n.
Proof.
  intros [Hn0 Hn]. unfold b64_round.
  destruct (Qeq_bool (inject_Z n) 0) eqn:E.
  { apply Qeq_bool_eq in E. now rewrite E. }
  assert (Hpos : (0 < n)%Z).
  { destruct (Z.eq_dec n 0%Z) as [->|]; [discriminate E | lia]. }
  assert (Habs : Qabs (inject_Z n) = inject_Z n).
  { unfold Qabs, inject_Z. now rewrite Z.abs_eq. }
  rewrite Habs.
  assert (Hlog : ilog2 (inject_Z n) = Z.log2 n).
  { unfold ilog2. rewrite Qfloor_Z.
    assert (Qle_bool 1 (inject_Z n) = true) as ->; [|reflexivity].
    apply Qle_bool_iff. change 1 with (inject_Z 1). rewrite <- Zle_Qle. lia. }
  rewrite Hlog.
  pose proof (Z.log2_nonneg n) as Hl0.
  assert (Hl : (Z.log2 n < 53)%Z) by (apply Z.log2_lt_pow2; lia).
  rewrite Z.max_l by lia.
  unfold pow2. destruct (Z.leb_spec 0 (Z.log2 n - 52)) as [Hc|Hc].
  - replace (Z.log2 n - 52)%Z with 0%Z by lia. change (inject_Z (2 ^ 0)) with 1.
    assert (E1 : inject_Z n / 1 == inject_Z n) by (field).
    rewrite E1, round_half_even_Z. ring.
  - set (P := (2 ^ (- (Z.log2 n - 52)))%Z).
    assert (HP : (0 < P)%Z) by (apply Z.pow_pos_nonneg; lia).
    assert (HPq : ~ inject_Z P == 0).
    { pose proof (inject_Z_pos P HP). lra. }
    assert (E1 : inject_Z n / / inject_Z P == inject_Z (n * P)).
    { rewrite inject_Z_mult. now field. }
    rewrite E1, round_half_even_Z, inject_Z_mult. now field.
Qed.


Lemma Qfloor_bounds (x : Q) (d : Z) :
  (0 < d)%Z ->
  let k := Qfloor (x / inject_Z d) in
  inject_Z k * inject_Z d <= x /\ x < (inject_Z k + 1) * inject_Z d.
Proof.
  intros Hd k. pose proof (inject_Z_pos d Hd) as Hdq.
  pose proof (Qfloor_le (x / inject_Z d)) as H1.
  pose proof (Qlt_floor (x / inject_Z d)) as H2.
  fold k in H1, H2. rewrite inject_Z_plus in H2. change (inject_Z 1) with 1 in H2.
  assert (E : x / inject_Z d * inject_Z d == x) by (field; lra).
  clearbody k. split.
  - rewrite <- E. apply Qmult_le_compat_r; lra.
  - rewrite <- E at 1. apply Qmult_lt_compat_r; lra.
Qed.

Lemma Qfloor_nonneg (x : Q) : 0 <= x -> (0 <= Qfloor x)%Z.
Proof.
  intros H. change 0%Z with (Qfloor 0). now apply Qfloor_resp_le.
Qed.

Lemma Qdiv_nonneg (x : Q) (d : Z) : (0 < d)%Z -> 0 <= x -> 0 <= x / inject_Z d.
Proof.
  intros Hd Hx. pose proof (inject_Z_pos d Hd).
  apply Qle_shift_div_l; lra.
Qed.

Lemma py_int_nonneg (x : Q) : 0 <= x -> py_int x = Qfloor x.
Proof.
  intros H. unfold py_int.
  assert (Qle_bool 0 x = true) as -> by now apply Qle_bool_iff.
  reflexivity.
Qed.

(** On a non-negative dividend [fmod] is the remainder of the floor
    division. *)
Lemma fmod_nonneg (x : Q) (d : Z) :
  (0 < d)%Z -> 0 <= x ->
  fmod x (inject_Z d) == x - inject_Z (Qfloor (x / inject_Z d)) * inject_Z d.
Proof.
  intros Hd Hx. unfold fmod.
  rewrite py_int_nonneg by now apply Qdiv_nonneg.
  reflexivity.
Qed.

Lemma fmod_range (x : Q) (d : Z) :
  (0 < d)%Z -> 0 <= x ->
  0 <= fmod x (inject_Z d) /\ fmod x (inject_Z d) < inject_Z d.
Proof.
  intros Hd Hx. rewrite fmod_nonneg by assumption.
  destruct (Qfloor_bounds x d Hd) as [H1 H2]. split; lra.
Qed.

(** [x % d] is exact for a non-negative [x] and a positive integer [d]. *)
Lemma float_rem_exact (x : Q) (d : Z) :
  (0 < d)%Z -> 0 <= x ->
  float_rem x (inject_Z d)
  == x - inject_Z (Qfloor (x / inject_Z d)) * inject_Z d.
Proof.
  intros Hd Hx. unfold float_rem. cbv zeta.
  destruct (fmod_range x d Hd Hx) as [H0 H1].
  pose proof (inject_Z_pos d Hd) as Hdq.
  rewrite (Qlt_bool_false (inject_Z d) 0) by lra.
  rewrite (Qlt_bool_false (fmod x (inject_Z d)) 0) by lra.
  cbn [eqb negb].
  destruct (Qeq_bool (fmod x (inject_Z d)) 0) eqn:E; cbn [negb].
  - apply Qeq_bool_eq in E. rewrite <- E. now apply fmod_nonneg.
  - now apply fmod_nonneg.
Qed.

(** [x // d] is the exact floor of the quotient below [2^53]. *)
Lemma float_floor_div_exact (x : Q) (d : Z) :
  (0 < d)%Z -> 0 <= x -> x < inject_Z (2 ^ 53) ->
  float_floor_div x (inject_Z d) == inject_Z (Qfloor (x / inject_Z d)).
Proof.
  intros Hd Hx Hlt. unfold float_floor_div. cbv zeta.
  destruct (fmod_range x d Hd Hx) as [H0 H1].
  pose proof (inject_Z_pos d Hd) as Hdq.
  pose proof (fmod_nonneg x d Hd Hx) as Hm.
  destruct (Qfloor_bounds x d Hd) as [Hk1 Hk2].
  pose proof (Qfloor_nonneg _ (Qdiv_nonneg x d Hd Hx)) as Hk0.
  set (k := Qfloor (x / inject_Z d)) in *.
  rewrite (Qlt_bool_false (inject_Z d) 0) by lra.
  rewrite (Qlt_bool_false (fmod x (inject_Z d)) 0) by lra.
  cbn [eqb negb]. rewrite andb_false_r.
  assert (Hkd : (0 <= k * d < 2 ^ 53)%Z).
  { split; [nia|]. rewrite Zlt_Qlt, inject_Z_mult. lra. }
  assert (Hk : (0 <= k < 2 ^ 53)%Z) by nia.
  assert (E1 : x - fmod x (inject_Z d) == inject_Z (k * d)).
  { rewrite Hm, inject_Z_mult. ring. }
  assert (E2 : b64_round (b64_round (x - fmod x (inject_Z d)) / inject_Z d)
               == inject_Z k).
  { rewrite E1, (b64_round_Z _ Hkd), inject_Z_mult.
    assert (E : inject_Z k * inject_Z d / inject_Z d == inject_Z k)
      by (field; lra).
    rewrite E. now apply b64_round_Z. }
  set (dv := b64_round (b64_round (x - fmod x (inject_Z d)) / inject_Z d)) in *.
  destruct (Qeq_bool dv 0) eqn:E; cbn [negb].
  - apply Qeq_bool_eq in E. rewrite <- E2. now rewrite E.
  - rewrite (Qfloor_comp _ _ E2), Qfloor_Z.
    assert (E3 : b64_round (dv - inject_Z k) == 0).
    { assert (E0 : dv - inject_Z k == 0) by (rewrite E2; ring).
      now rewrite E0. }
    rewrite (Qlt_bool_comp (1 # 2) (1 # 2) ltac:(reflexivity) _ _ E3).
    reflexivity.
Qed.


Lemma Qfloor_unique (q : Q) (k : Z) :
  inject_Z k <= q -> q < inject_Z (k + 1) -> Qfloor q = k.
Proof.
  intros H1 H2.
  pose proof (Qfloor_le q) as H3. pose proof (Qlt_floor q) as H4.
  assert (Ha : (Qfloor q < k + 1)%Z) by (rewrite Zlt_Qlt; lra).
  assert (Hb : (k < Qfloor q + 1)%Z) by (rewrite Zlt_Qlt; lra).
  lia.
Qed.

End FloatFacts.

(** ** Strings of digits *)

Module StrFacts.

Lemma replace1_no_dot (s : pystr) : no_dot s -> replace1 46 44 s = s.
Proof.
  unfold replace1. induction 1 as [|c s Hc _ IH]; [reflexivity|].
  cbn [List.map]. rewrite IH.
  destruct (N.eqb_spec c 46); congruence.
Qed.

Lemma replace1_app (s t : pystr) :
  replace1 46 44 (s ++ t) = replace1 46 44 s ++ replace1 46 44 t.
Proof. apply List.map_app. Qed.

Lemma no_dot_app (s t : pystr) : no_dot s -> no_dot t -> no_dot (s ++ t).
Proof. intros; now apply Forall_app. Qed.

Lemma no_dot_uint (u : Decimal.uint) : no_dot (str (NilEmpty.string_of_uint u)).
Proof.
  induction u; cbn [NilEmpty.string_of_uint str list_ascii_of_string List.map];
    try (constructor; [vm_compute; discriminate | assumption]).
  constructor.
Qed.

Lemma no_dot_dec (n : Z) : no_dot (dec n).
Proof.
  unfold dec, NilZero.string_of_uint.
  destruct (N.to_uint (Z.to_N n)) eqn:E; try (rewrite <- E; apply no_dot_uint).
  repeat constructor. vm_compute; discriminate.
Qed.

Lemma no_dot_zfill (w : nat) (s : pystr) : no_dot s -> no_dot (zfill w s).
Proof.
  intros H. unfold zfill. apply no_dot_app; [|assumption].
  apply Forall_forall. intros c Hc. apply list_elem_of_In, repeat_spec in Hc. subst. discriminate.
Qed.

Lemma no_dot_fixed_digits (k : nat) (n : Z) : no_dot (fixed_digits k n).
Proof.
  revert n. induction k as [|k IH]; intros n; cbn [fixed_digits]; [constructor|].
  apply no_dot_app; [apply IH|]. repeat constructor.
  pose proof (Z.mod_pos_bound n 10 ltac:(lia)). lia.
Qed.

Lemma length_fixed_digits (k : nat) (n : Z) : length (fixed_digits k n) = k.
Proof.
  revert n. induction k as [|k IH]; intros n; cbn [fixed_digits]; [reflexivity|].
  rewrite length_app, IH. cbn. lia.
Qed.

(** Zero filling to six characters a number with three decimals fills its
    integer part to two. *)
Lemma zfill_decimal (a b : pystr) :
  length b = 3%nat ->
  zfill 6 (a ++ str "." ++ b) = zfill 2 a ++ str "." ++ b.
Proof.
  intros Hb. unfold zfill. rewrite !length_app, Hb.
  change (length (str ".")) with 1%nat.
  replace (6 - (length a + (1 + 3)))%nat with (2 - length a)%nat by lia.
  now rewrite <- app_assoc.
Qed.

End StrFacts.

(** ** The time format *)

Module TimeFacts.
Import FloatFacts StrFacts.
Local Open Scope Q_scope.

Lemma format_d_nonneg (w : nat) (z : Z) : (0 <= z)%Z -> format_d w z = zfill w (dec z).
Proof.
  intros H. unfold format_d. destruct (Z.ltb_spec z 0); [lia | reflexivity].
Qed.

(** [f"{s:06.3f}"] on a non-negative value. *)
Lemma format_f_6_3_nonneg (s s' : Q) :
  s == s' -> 0 <= s' ->
  format_f 6 3 s
  = let millis := round_half_even (s' * 1000) in
    zfill 2 (dec (millis / 1000)) ++ str "." ++ fixed_digits 3 millis.
Proof.
  intros E H. unfold format_f. cbv zeta.
  rewrite (Qlt_bool_false s 0) by (rewrite E; exact H).
  change (inject_Z (10 ^ Z.of_nat 3)) with 1000.
  change (10 ^ Z.of_nat 3)%Z with 1000%Z.
  assert (E1 : Qabs s * 1000 == s' * 1000).
  { rewrite E, Qabs_pos by exact H. reflexivity. }
  rewrite (round_half_even_comp _ _ E1).
  apply zfill_decimal, length_fixed_digits.
Qed.

Lemma format_time_srt_exact (x : Q) :
  0 <= x -> x < inject_Z (2 ^ 53) -> format_time_srt x = srt_time_spec x.
Proof.
  intros Hx Hlt. unfold format_time_srt, srt_time_spec. cbv zeta.
  change 3600 with (inject_Z 3600). change 60 with (inject_Z 60).
  pose proof (Qfloor_nonneg _ (Qdiv_nonneg x 3600 ltac:(lia) Hx)) as Hh.
  destruct (Qfloor_bounds x 3600 ltac:(lia)) as [Hr1 Hr2].
  destruct (Qfloor_bounds x 60 ltac:(lia)) as [Hs1 Hs2].
  pose proof (float_rem_exact x 3600 ltac:(lia) Hx) as Er.
  pose proof (float_rem_exact x 60 ltac:(lia) Hx) as Es.
  set (h := Qfloor (x / inject_Z 3600)) in *.
  set (r := float_rem x (inject_Z 3600)) in *.
  assert (Hr0 : 0 <= r) by (rewrite Er; lra).
  assert (Hr : r < inject_Z (2 ^ 53)).
  { rewrite Er. change (inject_Z (2 ^ 53)) with 9007199254740992.
    change (inject_Z 3600) with 3600 in *. lra. }
  (* hours *)
  rewrite (py_int_comp _ _ (float_floor_div_exact x 3600 ltac:(lia) Hx Hlt)).
  fold h. rewrite py_int_nonneg, Qfloor_Z, (format_d_nonneg 2 h Hh)
    by (change 0 with (inject_Z 0); rewrite <- Zle_Qle; exact Hh).
  (* minutes *)
  rewrite (py_int_comp _ _ (float_floor_div_exact r 60 ltac:(lia) Hr0 Hr)).
  pose proof (Qfloor_nonneg _ (Qdiv_nonneg r 60 ltac:(lia) Hr0)) as Hm.
  rewrite py_int_nonneg, Qfloor_Z, (format_d_nonneg 2 _ Hm)
    by (change 0 with (inject_Z 0); rewrite <- Zle_Qle; exact Hm).
  assert (Em : r / inject_Z 60 == (x - inject_Z (3600 * h)) / inject_Z 60).
  { rewrite Er, inject_Z_mult. field. }
  rewrite (Qfloor_comp _ _ Em).
  (* seconds *)
  assert (Es' : float_rem x (inject_Z 60)
                == x - inject_Z (60 * Qfloor (x / inject_Z 60))).
  { rewrite Es, inject_Z_mult. ring. }
  rewrite (format_f_6_3_nonneg _ _ Es')
    by (rewrite inject_Z_mult; change (inject_Z 60) with 60 in *; lra).
  cbv zeta.
  rewrite !replace1_app.
  change (replace1 46 44 (str ":")) with (str ":").
  change (replace1 46 44 (str ".")) with (str ",").
  rewrite !replace1_no_dot
    by auto using no_dot_zfill, no_dot_dec, no_dot_fixed_digits.
  reflexivity.
Qed.

End TimeFacts.

Module MinuteFacts.
Import FloatFacts StrFacts TimeFacts.
Local Open Scope Q_scope.

Lemma srt_time_first_minute (x : Q) :
  0 <= x -> x < 60 ->
  format_time_srt x
  = let millis := round_half_even (x * 1000) in
    str "00:00:" ++ zfill 2 (dec (millis / 1000)) ++ str ","
    ++ fixed_digits 3 millis.
Proof.
  intros H0 H60.
  rewrite format_time_srt_exact
    by (try change (inject_Z (2 ^ 53)) with 9007199254740992; lra).
  unfold srt_time_spec. cbv zeta.
  assert (Eh : Qfloor (x / 3600) = 0%Z).
  { apply Qfloor_unique.
    - apply Qle_shift_div_l; [reflexivity | unfold inject_Z; lra].
    - apply Qlt_shift_div_r; [reflexivity | change (inject_Z (0 + 1)) with 1; lra]. }
  assert (Es : Qfloor (x / 60) = 0%Z).
  { apply Qfloor_unique.
    - apply Qle_shift_div_l; [reflexivity | unfold inject_Z; lra].
    - apply Qlt_shift_div_r; [reflexivity | change (inject_Z (0 + 1)) with 1; lra]. }
  rewrite Eh, Es. change (inject_Z (3600 * 0)) with 0. change (inject_Z (60 * 0)) with 0.
  assert (Em : Qfloor ((x - 0) / 60) = 0%Z).
  { assert (E0 : (x - 0) / 60 == x / 60) by field.
    now rewrite (Qfloor_comp _ _ E0). }
  rewrite Em.
  assert (E : (x - 0) * 1000 == x * 1000) by ring.
  rewrite (round_half_even_comp _ _ E).
  reflexivity.
Qed.

Lemma round_half_even_up (q : Q) (k : Z) :
  Z.even k = false ->
  inject_Z k + (1 # 2) <= q -> q < inject_Z (k + 1) ->
  round_half_even q = (k + 1)%Z.
Proof.
  intros Hodd H1 H2. unfold round_half_even.
  assert (Ef : Qfloor q = k).
  { apply Qfloor_unique; [lra | assumption]. }
  rewrite Ef, Hodd.
  destruct (Qcompare_spec (q - inject_Z k) (1 # 2)) as [E|E|E];
    [reflexivity | exfalso; lra | reflexivity].
Qed.

End MinuteFacts.

(** ** The paths of a run *)

Module RunFacts.

Lemma main_globals_extract :
  bool_decide ("extract_audio_from_video" ∈ main_globals) = true.
Proof. vm_compute. reflexivity. Qed.

Lemma main_globals_load :
  bool_decide ("load_whisper_model" ∈ main_globals) = true.
Proof. vm_compute. reflexivity. Qed.

Lemma main_globals_transcribe :
  bool_decide ("transcribe_audio" ∈ main_globals) = true.
Proof. vm_compute. reflexivity. Qed.

(** [format_time_srt] is not bound yet: its [def] is below the block. *)
Lemma main_globals_format :
  bool_decide ("format_time_srt" ∈ main_globals) = false.
Proof. vm_compute. reflexivity. Qed.

Lemma srt_loop_nil i acc w : srt_loop i [] acc w = (w, inr acc).
Proof. reflexivity. Qed.

(** The first iteration of the loop stops at the call of line 193. *)
Lemma srt_loop_undefined i s rest acc w :
  bool_decide ("format_time_srt" ∈ globals w) = false ->
  srt_loop i (s :: rest) acc w = (w, inl (name_error "format_time_srt")).
Proof.
  intros H. cbn [srt_loop]. unfold bind at 1. unfold call_global at 1.
  rewrite H. reflexivity.
Qed.

(** In a namespace where the [def] of line 215 has run, the loop builds
    the blocks of the specification, one per segment. *)
Lemma srt_loop_defined i segs acc w :
  bool_decide ("format_time_srt" ∈ globals w) = true ->
  srt_loop i segs acc w = (w, inr (acc ++ concat (srt_blocks i segs))).
Proof.
  intros H. revert i acc.
  induction segs as [|s rest IH]; intros i acc; cbn [srt_loop srt_blocks concat].
  - unfold ret. now rewrite app_nil_r.
  - cbv beta iota delta [bind call_global ret].
    rewrite H. cbv beta iota. rewrite H. cbv beta iota.
    rewrite IH. now rewrite <- app_assoc.
Qed.

Lemma srt_blocks_length i segs : length (srt_blocks i segs) = length segs.
Proof.
  revert i. induction segs as [|s rest IH]; intros i; cbn [srt_blocks length].
  - reflexivity.
  - now rewrite IH.
Qed.

(** *** The two temporary files of a run *)

Lemma video_fresh (f : gset path) : fresh f ∉ f.
Proof. apply is_fresh. Qed.

Lemma audio_fresh (f : gset path) :
  fresh ({[fresh f]} ∪ f) ∉ {[fresh f]} ∪ f.
Proof. apply is_fresh. Qed.

Lemma audio_not_in (f : gset path) : fresh ({[fresh f]} ∪ f) ∉ f.
Proof.
  intros H. apply (audio_fresh f). apply elem_of_union. now right.
Qed.

Lemma audio_not_video (f : gset path) : fresh ({[fresh f]} ∪ f) <> fresh f.
Proof.
  intros H. apply (audio_fresh f). apply elem_of_union. left.
  now apply elem_of_singleton.
Qed.

Lemma video_in (f : gset path) :
  fresh f ∈ {[fresh ({[fresh f]} ∪ f)]} ∪ ({[fresh f]} ∪ f).
Proof.
  apply elem_of_union. right. apply elem_of_union. left.
  now apply elem_of_singleton.
Qed.

Lemma audio_in (f : gset path) :
  fresh ({[fresh f]} ∪ f) ∈ {[fresh ({[fresh f]} ∪ f)]} ∪ ({[fresh f]} ∪ f).
Proof. apply elem_of_union. left. now apply elem_of_singleton. Qed.

Lemma video_exists (f : gset path) :
  bool_decide (fresh f ∈ {[fresh ({[fresh f]} ∪ f)]} ∪ ({[fresh f]} ∪ f))
  = true.
Proof. apply bool_decide_eq_true_2, video_in. Qed.

Lemma audio_exists (f : gset path) :
  bool_decide
    (fresh ({[fresh f]} ∪ f)
     ∈ ({[fresh ({[fresh f]} ∪ f)]} ∪ ({[fresh f]} ∪ f)) ∖ {[fresh f]})
  = true.
Proof.
  apply bool_decide_eq_true_2. apply elem_of_difference. split.
  - apply audio_in.
  - rewrite elem_of_singleton. apply audio_not_video.
Qed.

(** After both [os.unlink] the disk is as it was before the run. *)
Lemma cleanup_restores (f : gset path) :
  (({[fresh ({[fresh f]} ∪ f)]} ∪ ({[fresh f]} ∪ f)) ∖ {[fresh f]})
  ∖ {[fresh ({[fresh f]} ∪ f)]} = f.
Proof.
  pose proof (video_fresh f) as Hv. pose proof (audio_not_in f) as Ha.
  apply set_eq. intros x.
  rewrite !elem_of_difference, !elem_of_union, !elem_of_singleton.
  split; [tauto|]. intros Hx.
  repeat split; [tauto | |]; intros ->; tauto.
Qed.

(** *** Symbolic execution *)

Ltac exec_in H :=
  cbv beta iota zeta delta
      [run_script script transcription pipeline present
       extract_audio_from_video write_audio transcribe_audio transcribe_call
       load_whisper_model cache_resource whisper_load getitem
       bind ret raise try_except emit def call_global
       named_temporary_file os_path_exists os_unlink
       set_log set_files set_cache set_globals set_next_obj
       log files cache next_obj globals fst snd] in H;
  fold main_globals in H;
  rewrite ?main_globals_extract, ?main_globals_load, ?main_globals_transcribe
    in H.

(** The next decision of the run: a widget value, an answer of a library,
    a lookup. *)
Ltac split_in H :=
  match type of H with
  | context [uploaded_file ?i] => destruct (uploaded_file i) as [?up|] eqn:?Hup
  | context [start_pressed ?i] => destruct (start_pressed i) eqn:?Hpressed
  | context [moviepy_clip ?e ?p] => destruct (moviepy_clip e p) eqn:?Hclip
  | context [@lookup _ _ (gmap pystr obj) _ ?k ?c] =>
      destruct (c !! k) as [?m|] eqn:?Hcache
  | context [whisper_load_model ?e ?n] =>
      destruct (whisper_load_model e n) as [?e|] eqn:?Hload
  | context [assoc ?k ?d] => destruct (assoc k d) as [?code|] eqn:?Hlang
  | context [model_transcribe ?e ?m ?p ?a] =>
      destruct (model_transcribe e m p a) as [?e|?result] eqn:?Htr
  | context [res_segments ?r] =>
      destruct (res_segments r) as [[|?s ?rest]|] eqn:?Hsegs
  | context [srt_loop ?i [] ?acc ?w] => rewrite (srt_loop_nil i acc w) in H
  | context [srt_loop ?i (?s :: ?rest) ?acc ?w] =>
      rewrite (srt_loop_undefined i s rest acc w main_globals_format) in H
  | context [bool_decide (fresh ?f ∈ _)] => rewrite (video_exists f) in H
  | context [bool_decide (fresh (_ ∪ ?f) ∈ _)] => rewrite (audio_exists f) in H
  end.

(** Every path of a run, with the world it ends in. *)
Ltac run_cases w R :=
  let HR := fresh "HR" in
  destruct w as [?f ?c ?n ?g ?l];
  match goal with
  | |- context [run_script ?env ?inp ?w'] =>
      remember (run_script env inp w') as R eqn:HR
  end;
  exec_in HR; repeat (split_in HR; exec_in HR);
  rewrite ?cleanup_restores in HR;
  subst R; cbn [fst snd log files cache next_obj globals].

(** Evaluation of the observations on the log of a path. *)
Ltac eval_bool t :=
  let b := eval lazy in t in change t with b.

Ltac observe :=
  cbv zeta;
  cbn [created_files transcribe_calls load_calls progress_bar status_text
       error_banners List.filter is_error is_result_element length];
  repeat match goal with
    | |- context [extraction_failed ?l] => eval_bool (extraction_failed l)
    | |- context [transcription_failed ?l] => eval_bool (transcription_failed l)
    | |- context [outer_handler_fired ?l] => eval_bool (outer_handler_fired l)
    | |- context [srt_artifact ?l] => eval_bool (srt_artifact l)
    end.

(** A run makes at most one call of each kind. *)
Ltac one_call H :=
  first [ by apply elem_of_nil in H
        | apply list_elem_of_singleton in H ].

(** The files created on a path, one by one. *)
Ltac each_file H :=
  repeat (apply elem_of_cons in H as [->|H]);
  first [ by apply elem_of_nil in H
        | auto using video_fresh, audio_not_in, video_in, audio_in ].

End RunFacts.

(** ** The resource cache *)

Module CacheFacts.
Import RunFacts.

Lemma load_hit env name w m :
  cache w !! name = Some m -> load_whisper_model env name w = (w, inr m).
Proof.
  intros H. unfold load_whisper_model, cache_resource. now rewrite H.
Qed.

Lemma load_miss env name w w' m :
  cache w !! name = None ->
  load_whisper_model env name w = (w', inr m) ->
  m = next_obj w /\ cache w' = <[name := m]> (cache w)
  /\ next_obj w' = S (next_obj w) /\ files w' = files w
  /\ log w' = WhisperLoadModel name :: log w.
Proof.
  intros H. unfold load_whisper_model, cache_resource, whisper_load.
  rewrite H. unfold bind, emit.
  destruct (whisper_load_model env name); unfold raise; cbn; [discriminate|].
  intros [= <- <-]. cbn. auto.
Qed.

Lemma insert_fresh_wf (c : gmap pystr obj) (n : obj) (name : pystr) :
  c !! name = None ->
  (forall k m, c !! k = Some m -> (m < n)%nat) ->
  (forall k k' m, c !! k = Some m -> c !! k' = Some m -> k = k') ->
  (forall k m, <[name := n]> c !! k = Some m -> (m < S n)%nat)
  /\ (forall k k' m,
        <[name := n]> c !! k = Some m -> <[name := n]> c !! k' = Some m ->
        k = k').
Proof.
  intros Hnone Hlt Hinj. split.
  - intros k m. destruct (decide (name = k)) as [->|Hne].
    + rewrite lookup_insert_eq. intros [= <-]. lia.
    + rewrite lookup_insert_ne by assumption. intros Hk.
      specialize (Hlt k m Hk). lia.
  - intros k k' m.
    destruct (decide (name = k)) as [<-|Hne];
      destruct (decide (name = k')) as [<-|Hne'];
      rewrite ?lookup_insert_eq, ?lookup_insert_ne by assumption.
    + reflexivity.
    + intros [= <-] Hk'. specialize (Hlt k' n Hk'). lia.
    + intros Hk [= <-]. specialize (Hlt k n Hk). lia.
    + apply Hinj.
Qed.

Lemma insert_fresh_keeps (c : gmap pystr obj) (n : obj) (name : pystr) :
  c !! name = None ->
  forall k x, c !! k = Some x -> <[name := n]> c !! k = Some x.
Proof.
  intros Hnone k x Hk. rewrite lookup_insert_ne; [assumption | congruence].
Qed.

(** A successful call leaves the object in the cache, keeps what was
    cached, and allocates a new object only when the argument was not
    cached. *)
Lemma load_result env name w w' m :
  load_whisper_model env name w = (w', inr m) ->
  cache w' !! name = Some m
  /\ (forall k x, cache w !! k = Some x -> cache w' !! k = Some x)
  /\ (cache_wf w -> cache_wf w')
  /\ (cache w !! name = None -> m = next_obj w).
Proof.
  intros Hrun. destruct (cache w !! name) as [m0|] eqn:Hc.
  - rewrite (load_hit _ _ _ _ Hc) in Hrun. injection Hrun as <- <-.
    repeat split; auto; try apply H; discriminate.
  - destruct (load_miss _ _ _ _ _ Hc Hrun) as (-> & Hc' & Hn & _ & _).
    unfold cache_wf. rewrite Hc', Hn. split; [apply lookup_insert_eq|].
    split; [now apply insert_fresh_keeps|].
    split; [|reflexivity].
    intros [Hlt Hinj]. now apply insert_fresh_wf.
Qed.

(** A run of the script keeps every cached model. *)
Lemma run_script_cache env inp w :
  let w' := (run_script env inp w).1 in
  (forall k x, cache w !! k = Some x -> cache w' !! k = Some x)
  /\ (cache_wf w -> cache_wf w').
Proof.
  run_cases w R; cbv zeta; unfold cache_wf; cbn [cache next_obj];
    (split; [first [now apply insert_fresh_keeps | auto] | ]);
    first [ intros [Hlt Hinj]; now apply insert_fresh_wf | auto ].
Qed.

Lemma runs_cache rs w :
  (forall k x, cache w !! k = Some x -> cache (runs rs w) !! k = Some x)
  /\ (cache_wf w -> cache_wf (runs rs w)).
Proof.
  revert w. induction rs as [|[env inp] rs IH]; intros w; cbn [runs].
  - auto.
  - destruct (run_script_cache env inp w) as [Hkeep Hwf].
    destruct (IH (run_script env inp w).1) as [Hkeep' Hwf'].
    split; auto.
Qed.

Lemma initial_world_wf : cache_wf initial_world.
Proof.
  split; cbn [cache initial_world]; intros *; rewrite lookup_empty;
    discriminate.
Qed.

End CacheFacts.

(** * The claims of the specification *)

Import FloatFacts StrFacts TimeFacts MinuteFacts RunFacts CacheFacts.

(** ** The subtitle artifact *)

(** C1: the subtitle artifact should hold one block per segment, numbered
    from 1, in segment order.  On the script as it is written a result with
    one segment never gets that far: the first iteration of the loop calls
    [format_time_srt] before line 215 has bound the name, the outer handler
    shows the [NameError], and no subtitle download is rendered.  The block
    the loop would have appended is the one of the specification
    ([srt_loop_defined] gives the loop in a namespace where the name is
    bound). *)
Theorem srt_artifact_missing_for_one_segment :
  let env := Scenario.env_returning Scenario.one_segment in
  let l := log (run_script env Scenario.input initial_world).1 in
  transcribe_calls l = [(0%nat, 1%nat, Scenario.transcribe_args)]
  /\ srt_artifact l = None
  /\ error_banners l
     = [StError
          (str "An error occurred: name 'format_time_srt' is not defined")]
  /\ srt_blocks 1 [Scenario.namaste]
     = [str "1" ++ nl ++ str "00:00:00,000 --> 00:00:01,500" ++ nl
        ++ str "namaste" ++ nl ++ nl].
Proof. cbv zeta. repeat split; vm_compute; reflexivity. Qed.

(** C9, as the specification states it, fails on a silent track: whisper
    returns an empty list of segments, the loop of line 192 has nothing to
    iterate on, no call of [format_time_srt] is made, and the subtitle
    download is rendered, empty. *)
Lemma srt_artifact_for_silence :
  let env := Scenario.env_returning Scenario.silence in
  let l := log (run_script env Scenario.input initial_world).1 in
  transcribe_calls l = [(0%nat, 1%nat, Scenario.transcribe_args)]
  /\ srt_artifact l = Some []
  /\ error_banners l = [].
Proof. cbv zeta. repeat split; vm_compute; reflexivity. Qed.

(** C9, amended: whenever the transcription has at least one segment, the
    call of line 193 raises [NameError], the outer handler catches it
    (its banner is the only one, progress bar and status line are
    cleared) and no subtitle download is rendered; a subtitle download is
    rendered only for an empty list of segments, and it is empty. *)
Theorem srt_only_when_empty (env : Env) (inp : Input) (w : World) :
  let l := log (run_script env inp w).1 in
  (srt_artifact l = None \/ srt_artifact l = Some [])
  /\ (forall m p a result s rest,
        (m, p, a) ∈ transcribe_calls l ->
        model_transcribe env m p a = inr result ->
        res_segments result = Some (s :: rest) ->
        srt_artifact l = None
        /\ error_banners l
           = [StError (str "An error occurred: "
                       ++ exn_msg (name_error "format_time_srt"))]
        /\ progress_bar l = Cleared /\ status_text l = Cleared)
  /\ (forall m p a result,
        (m, p, a) ∈ transcribe_calls l ->
        model_transcribe env m p a = inr result ->
        res_segments result = Some [] ->
        srt_artifact l = Some [] /\ error_banners l = []).
Proof.
  run_cases w R; observe;
    (split; [auto|]); split.
  all: try (intros m' p' a' r' s' rest' Hin Hr Hs).
  all: try (intros m' p' a' r' Hin Hr Hs).
  all: one_call Hin; injection Hin as -> -> ->.
  all: try congruence.
  all: repeat split; reflexivity.
Qed.

Lemma srt_only_when_empty_witness :
  let env := Scenario.env_returning Scenario.one_segment in
  let l := log (run_script env Scenario.input initial_world).1 in
  (0%nat, 1%nat, Scenario.transcribe_args) ∈ transcribe_calls l
  /\ srt_artifact l = None
  /\ progress_bar l = Cleared.
Proof.
  cbv zeta.
  assert (Hin : (0%nat, 1%nat, Scenario.transcribe_args)
                ∈ transcribe_calls
                    (log (run_script
                            (Scenario.env_returning Scenario.one_segment)
                            Scenario.input initial_world).1))
    by (vm_compute; constructor).
  split; [exact Hin|].
  destruct (proj1 (proj2 (srt_only_when_empty
                            (Scenario.env_returning Scenario.one_segment)
                            Scenario.input initial_world))
              _ _ _ Scenario.one_segment _ _ Hin eq_refl eq_refl)
    as (Hnone & _ & Hbar & _).
  split; assumption.
Defined.

(** ** The time format *)

(** C2: [format_time_srt] writes the hours [floor(seconds/3600)], the
    minutes [floor((seconds mod 3600)/60)] and the remaining seconds
    rounded to the millisecond, zero-filled to two, two, two and three
    digits with a comma before the milliseconds, for every time from zero
    up to [2^53] seconds; the three examples of the specification hold; and
    rounding the seconds never carries into the minutes: below one minute
    the result starts with [00:00:]. *)
Theorem format_time_srt_fields :
  (forall x : Q,
     (0 <= x)%Q -> (x < inject_Z (2 ^ 53))%Q ->
     format_time_srt x = srt_time_spec x)
  /\ format_time_srt (float_lit 0 1) = str "00:00:00,000"
  /\ format_time_srt (float_lit 36615 10) = str "01:01:01,500"
  /\ format_time_srt (float_lit 59999 1000) = str "00:00:59,999"
  /\ (forall x : Q,
        (0 <= x)%Q -> (x < 60)%Q ->
        take 6 (format_time_srt x) = str "00:00:").
Proof.
  split; [exact format_time_srt_exact|].
  split; [vm_compute; reflexivity|].
  split; [vm_compute; reflexivity|].
  split; [vm_compute; reflexivity|].
  intros x H0 H60. rewrite srt_time_first_minute by assumption. reflexivity.
Qed.

Lemma format_time_srt_fields_witness :
  (0 <= float_lit 73220375 10000)%Q
  /\ (float_lit 73220375 10000 < inject_Z (2 ^ 53))%Q
  /\ format_time_srt (float_lit 73220375 10000)
     = srt_time_spec (float_lit 73220375 10000).
Proof.
  assert (H0 : (0 <= float_lit 73220375 10000)%Q)
    by (vm_compute; intros H; discriminate H).
  assert (H1 : (float_lit 73220375 10000 < inject_Z (2 ^ 53))%Q)
    by (vm_compute; reflexivity).
  split; [exact H0|]. split; [exact H1|].
  exact (proj1 format_time_srt_fields _ H0 H1).
Defined.

(** C10, as the specification states it, fails on its example: the float
    that Python reads for the literal 59.9995 lies just below 59.9995, and
    is written with 59 seconds and 999 milliseconds. *)
Lemma format_time_srt_59_9995 :
  (float_lit 599995 10000 < 599995 # 10000)%Q
  /\ format_time_srt (float_lit 599995 10000) = str "00:00:59,999"
  /\ format_time_srt (float_lit 599995 10000) <> str "00:00:60,000".
Proof.
  split; [vm_compute; reflexivity|].
  split; [vm_compute; reflexivity | vm_compute; discriminate].
Qed.

(** C10, amended: the seconds field is not kept below 60.  For every time
    from 59.9995 up to, and excluding, one minute (59.9996 is one), the
    seconds are rounded up to 60.000 and the function returns
    [00:00:60,000], with nothing carried into the minutes. *)
Theorem format_time_srt_sixty (x : Q) :
  (599995 # 10000 <= x)%Q -> (x < 60)%Q ->
  format_time_srt x = str "00:00:60,000".
Proof.
  intros H1 H2. rewrite srt_time_first_minute by lra. cbv zeta.
  rewrite (round_half_even_up (x * 1000) 59999);
    [reflexivity | reflexivity | | ].
  - change (inject_Z 59999) with 59999%Q. lra.
  - change (inject_Z (59999 + 1)) with 60000%Q. lra.
Qed.

Lemma format_time_srt_sixty_witness :
  (599995 # 10000 <= float_lit 599996 10000)%Q
  /\ (float_lit 599996 10000 < 60)%Q
  /\ format_time_srt (float_lit 599996 10000) = str "00:00:60,000".
Proof.
  assert (H0 : (599995 # 10000 <= float_lit 599996 10000)%Q)
    by (vm_compute; intros H; discriminate H).
  assert (H1 : (float_lit 599996 10000 < 60)%Q) by (vm_compute; reflexivity).
  split; [exact H0|]. split; [exact H1|].
  exact (format_time_srt_sixty _ H0 H1).
Defined.

(** ** Temporary files *)

(** C3, as the specification states it, fails when inference fails:
    [transcribe_audio] returns [None], the cleanup of lines 204-208 is
    outside the [if result:] block and runs, and both temporary files of
    the run are deleted. *)
Lemma temp_files_deleted_after_inference_error :
  let w' :=
    (run_script Scenario.env_inference_error Scenario.input initial_world).1 in
  transcription_failed (log w') = true
  /\ created_files (log w') = [1%nat; 0%nat]
  /\ elements (files w') = [].
Proof. cbv zeta. repeat split; vm_compute; reflexivity. Qed.

(** C3, amended: the temporary files created during a run are still on
    disk at its end when extraction fails and when an exception reaches
    the outer handler; they are deleted when the transcription fails and
    when the run shows no error. *)
Theorem temp_files_fate (env : Env) (inp : Input) (w : World) :
  let w' := (run_script env inp w).1 in
  (extraction_failed (log w') = true ->
   forall p, p ∈ created_files (log w') -> p ∈ files w')
  /\ (outer_handler_fired (log w') = true ->
      forall p, p ∈ created_files (log w') -> p ∈ files w')
  /\ (transcription_failed (log w') = true ->
      forall p, p ∈ created_files (log w') -> p ∉ files w')
  /\ (error_banners (log w') = [] ->
      forall p, p ∈ created_files (log w') -> p ∉ files w').
Proof.
  run_cases w R; observe;
    repeat split; intros Hk p Hp; try discriminate Hk; each_file Hp.
Qed.

Lemma temp_files_fate_witness :
  let w' := (run_script Scenario.env_no_audio Scenario.input initial_world).1 in
  extraction_failed (log w') = true
  /\ 0%nat ∈ created_files (log w')
  /\ 0%nat ∈ files w'.
Proof.
  cbv zeta.
  assert (Hk : extraction_failed
                 (log (run_script Scenario.env_no_audio Scenario.input
                         initial_world).1) = true)
    by (vm_compute; reflexivity).
  assert (Hp : 0%nat
               ∈ created_files
                   (log (run_script Scenario.env_no_audio Scenario.input
                           initial_world).1))
    by (vm_compute; repeat constructor).
  split; [exact Hk|]. split; [exact Hp|].
  exact (proj1 (temp_files_fate Scenario.env_no_audio Scenario.input
                  initial_world) Hk 0%nat Hp).
Defined.

(** ** Failures *)

(** C4: in a run where inference fails, so that [transcribe_audio] returns
    [None], nothing of the Result Presenter is rendered: no text area, no
    segment table, no download button. *)
Theorem presenter_needs_transcript (env : Env) (inp : Input) (w : World)
    (m : obj) (p : path) (a : TranscribeArgs) (e : exn) :
  let l := log (run_script env inp w).1 in
  (m, p, a) ∈ transcribe_calls l ->
  model_transcribe env m p a = inl e ->
  List.filter is_result_element l = [].
Proof.
  run_cases w R; observe; intros Hin Hfail; one_call Hin;
    try (injection Hin as -> -> ->; congruence); reflexivity.
Qed.

Lemma presenter_needs_transcript_witness :
  let l :=
    log (run_script Scenario.env_inference_error Scenario.input
           initial_world).1 in
  (0%nat, 1%nat, Scenario.transcribe_args) ∈ transcribe_calls l
  /\ List.filter is_result_element l = [].
Proof.
  cbv zeta.
  assert (Hin : (0%nat, 1%nat, Scenario.transcribe_args)
                ∈ transcribe_calls
                    (log (run_script Scenario.env_inference_error
                            Scenario.input initial_world).1))
    by (vm_compute; constructor).
  split; [exact Hin|].
  exact (presenter_needs_transcript Scenario.env_inference_error
           Scenario.input initial_world _ _ _ Scenario.out_of_memory
           Hin eq_refl).
Defined.

(** C5: the script departs from the rule that every failure clears the
    progress bar and the status line.  The outer handler (lines 210-213)
    does clear them, as the run with a failing model load shows.  The
    handlers of the two stages (lines 72-74 and 86-88) only show their
    banner and return [None]; the script then skips the guarded block, and
    nothing calls [progress_bar.empty()] or [status_text.empty()].  So for
    a video without audio track the single banner is the one of line 73 and
    the page keeps the bar at 30% under "Extracting audio from video...",
    and for a failing inference the single banner is the one of line 87 and
    the page keeps the bar at 70% under "Transcribing audio...". *)
Theorem stage_failure_keeps_indicators :
  let extraction :=
    log (run_script Scenario.env_no_audio Scenario.input initial_world).1 in
  let inference :=
    log (run_script Scenario.env_inference_error Scenario.input
           initial_world).1 in
  let load :=
    log (run_script Variant.env_load_error Scenario.input initial_world).1 in
  (error_banners extraction
   = [StError
        (str "Error extracting audio: 'NoneType' object has no attribute 'write_audiofile'")]
   /\ progress_bar extraction = Showing 30
   /\ status_text extraction
      = Showing (127925%N :: str " Extracting audio from video..."))
  /\ (error_banners inference
      = [StError (str "Error during transcription: out of memory")]
      /\ progress_bar inference = Showing 70
      /\ status_text inference
         = Showing (127919%N :: str " Transcribing audio..."))
  /\ (error_banners load = [StError (str "An error occurred: out of memory")]
      /\ progress_bar load = Cleared /\ status_text load = Cleared).
Proof. cbv zeta. repeat split; vm_compute; reflexivity. Qed.

(** ** The stages *)

(** C6: two calls of the Model Loader with the same size, in one process
    and whatever runs happen in between, return the same object, the second
    without loading anything; calls with two different sizes return two
    different objects; and both stay in the cache over all later runs. *)
Theorem model_loader_memoizes (env env' : Env) (a b : pystr) (w : World)
    (rs rs' : list (Env * Input)) (w1 w2 : World) (m1 m2 : obj) :
  cache_wf w ->
  load_whisper_model env a w = (w1, inr m1) ->
  load_whisper_model env' b (runs rs w1) = (w2, inr m2) ->
  (a = b -> m1 = m2 /\ w2 = runs rs w1)
  /\ (a <> b -> m1 <> m2)
  /\ cache (runs rs' w2) !! a = Some m1
  /\ cache (runs rs' w2) !! b = Some m2.
Proof.
  intros Hwf H1 H2.
  destruct (load_result _ _ _ _ _ H1) as (Ha1 & _ & Hwf1 & _).
  destruct (runs_cache rs w1) as [Hkeep Hwfr].
  pose proof (Hkeep _ _ Ha1) as Ha.
  destruct (load_result _ _ _ _ _ H2) as (Hb2 & Hkeep2 & Hwf2 & _).
  destruct (runs_cache rs' w2) as [Hkeep' _].
  split; [|split; [|split]].
  - intros <-. rewrite (load_hit _ _ _ _ Ha) in H2.
    injection H2 as <- <-. auto.
  - intros Hne ->.
    destruct (Hwf2 (Hwfr (Hwf1 Hwf))) as [_ Hinj].
    apply Hne. exact (Hinj a b m2 (Hkeep2 _ _ Ha) Hb2).
  - auto.
  - auto.
Qed.

Lemma model_loader_memoizes_witness :
  let env := Scenario.env_returning Scenario.silence in
  let rs := [(env, Scenario.input)] in
  let w1 := (load_whisper_model env (str "tiny") initial_world).1 in
  let w2 := (load_whisper_model env (str "base") (runs rs w1)).1 in
  cache_wf initial_world
  /\ (str "tiny" = str "base" -> 0%nat = 2%nat /\ w2 = runs rs w1)
  /\ (str "tiny" <> str "base" -> 0%nat <> 2%nat)
  /\ cache (runs rs w2) !! str "tiny" = Some 0%nat
  /\ cache (runs rs w2) !! str "base" = Some 2%nat.
Proof.
  cbv zeta. split; [exact initial_world_wf|].
  apply (model_loader_memoizes
           (Scenario.env_returning Scenario.silence)
           (Scenario.env_returning Scenario.silence)
           (str "tiny") (str "base") initial_world
           [(Scenario.env_returning Scenario.silence, Scenario.input)]
           [(Scenario.env_returning Scenario.silence, Scenario.input)]
           (load_whisper_model (Scenario.env_returning Scenario.silence)
              (str "tiny") initial_world).1
           (load_whisper_model (Scenario.env_returning Scenario.silence)
              (str "base")
              (runs [(Scenario.env_returning Scenario.silence, Scenario.input)]
                 (load_whisper_model (Scenario.env_returning Scenario.silence)
                    (str "tiny") initial_world).1)).1
           0%nat 2%nat initial_world_wf);
    vm_compute; reflexivity.
Defined.

(** C7: [transcribe_audio] calls the inference routine of the model once,
    with the language given, [fp16=False] and [verbose=False], and returns
    its result; if the call raises, the exception is caught, one banner is
    shown and the caller gets [None].  Nothing else changes. *)
Theorem transcribe_audio_contract (env : Env) (audio_path : path)
    (model : obj) (language_code : pystr) (w : World) :
  let args :=
    {| language := Some language_code; fp16 := false;
       verbose := Some false |} in
  let call := WhisperTranscribe model audio_path args in
  let w' := (transcribe_audio env audio_path model language_code w).1 in
  let r := (transcribe_audio env audio_path model language_code w).2 in
  transcribe_calls (log w')
  = (model, audio_path, args) :: transcribe_calls (log w)
  /\ files w' = files w /\ cache w' = cache w
  /\ match model_transcribe env model audio_path args with
     | inr result => r = inr (Some result) /\ log w' = call :: log w
     | inl e =>
         r = inr None
         /\ log w'
            = StError (str "Error during transcription: " ++ exn_msg e)
              :: call :: log w
     end.
Proof.
  cbv zeta.
  unfold transcribe_audio, transcribe_call, try_except, bind, emit, raise, ret.
  destruct (model_transcribe env model audio_path _); cbn; auto.
Qed.

(** C8: every call of the Audio Extractor creates the temporary audio
    file before it opens the video, so the file is on disk after the call
    whether extraction succeeded or not; and when extraction fails, at any
    of its steps, the function shows its banner and returns [None]: it does
    not raise. *)
Theorem extract_audio_contract (env : Env) (video_file : path) (w : World) :
  let p := fresh (files w) in
  let w' := (extract_audio_from_video env video_file w).1 in
  let r := (extract_audio_from_video env video_file w).2 in
  (p ∉ files w)
  /\ files w' = {[p]} ∪ files w
  /\ (exists later,
        log w'
        = later ++ MoviepyOpen video_file :: OsTempFile p (str ".wav")
                   :: log w)
  /\ match moviepy_clip env video_file with
     | ClipOk => r = inr (Some p) /\ error_banners (log w') = error_banners (log w)
     | _ =>
         r = inr None
         /\ exists e,
              head (log w')
              = Some (StError (str "Error extracting audio: " ++ exn_msg e))
     end.
Proof.
  cbv zeta. split; [apply is_fresh|].
  unfold extract_audio_from_video, write_audio, named_temporary_file,
    try_except, bind, emit, raise, ret.
  destruct (moviepy_clip env video_file);
    cbn [fst snd set_log set_files log files cache next_obj globals
         head error_banners List.filter is_error];
    (split; [reflexivity|]);
    (split;
     [ first [ by eexists [_] | by eexists [_; _] | by eexists [_; _; _]
             | by eexists [_; _; _; _] ]
     | first [ split; reflexivity
             | split; [reflexivity | eexists; reflexivity] ] ]).
Qed.

(** * Further properties of the script *)

(** ** Facts used below *)

Ltac observe_more :=
  cbv zeta;
  cbn [created_files transcribe_calls load_calls progress_bar status_text
       error_banners List.filter is_error is_result_element is_external
       length];
  observe;
  repeat match goal with
    | |- context [progress_values ?l] =>
        let b := eval lazy in (progress_values l) in
        change (progress_values l) with b
    | |- context [presented ?l] => eval_bool (presented l)
    end.

Lemma two_new_files (f : gset path) :
  size ({[fresh ({[fresh f]} ∪ f)]} ∪ ({[fresh f]} ∪ f)) = (size f + 2)%nat.
Proof.
  rewrite size_union.
  - rewrite size_union.
    + rewrite !size_singleton. lia.
    + apply disjoint_singleton_l, video_fresh.
  - apply disjoint_singleton_l, audio_fresh.
Qed.

(** Membership in the disk of a path on which both files are left. *)
Lemma in_both (f : gset path) (p : path) :
  p ∈ {[fresh ({[fresh f]} ∪ f)]} ∪ ({[fresh f]} ∪ f)
  <-> p = fresh ({[fresh f]} ∪ f) \/ p = fresh f \/ p ∈ f.
Proof. rewrite !elem_of_union, !elem_of_singleton. tauto. Qed.

Module StripFacts.

Lemma lstrip_split (s : pystr) :
  exists pre, s = pre ++ lstrip s /\ all_space pre.
Proof.
  induction s as [|c s (pre & E & Hpre)]; cbn [lstrip].
  - exists []. split; [reflexivity | constructor].
  - destruct (is_space c) eqn:Hc.
    + exists (c :: pre). split; [cbn; congruence | now constructor].
    + exists []. split; [reflexivity | constructor].
Qed.

Lemma lstrip_clean (s : pystr) : starts_clean (lstrip s).
Proof.
  induction s as [|c s IH]; cbn [lstrip]; [exact I|].
  destruct (is_space c) eqn:Hc; [exact IH | exact Hc].
Qed.

Lemma lstrip_id (s : pystr) : starts_clean s -> lstrip s = s.
Proof. destruct s as [|c s]; cbn; [reflexivity | now intros ->]. Qed.

Lemma rstrip_split (s : pystr) :
  exists post, s = rstrip s ++ post /\ all_space post.
Proof.
  destruct (lstrip_split (rev s)) as (pre & E & Hpre).
  exists (rev pre). split.
  - unfold rstrip. rewrite <- rev_app_distr, <- E. now rewrite rev_involutive.
  - unfold all_space. now apply Forall_rev.
Qed.

Lemma rstrip_clean (s : pystr) : starts_clean (rev (rstrip s)).
Proof. unfold rstrip. rewrite rev_involutive. apply lstrip_clean. Qed.

Lemma rstrip_id (s : pystr) : starts_clean (rev s) -> rstrip s = s.
Proof.
  intros H. unfold rstrip. rewrite (lstrip_id _ H). apply rev_involutive.
Qed.

(** [rstrip] keeps the first character. *)
Lemma rstrip_keeps_start (s : pystr) :
  starts_clean s -> starts_clean (rstrip s).
Proof.
  intros H. destruct (rstrip_split s) as (post & E & _).
  destruct (rstrip s) as [|c r]; [exact I|].
  rewrite E in H. exact H.
Qed.

End StripFacts.

Import StripFacts.

Module DigitFacts.
Local Open Scope Q_scope.

Lemma all_digits_uint (u : Decimal.uint) :
  all_digits (str (NilEmpty.string_of_uint u)).
Proof.
  induction u; cbn [NilEmpty.string_of_uint str list_ascii_of_string List.map];
    try (constructor; [vm_compute; split; discriminate | assumption]).
  constructor.
Qed.

Lemma all_digits_dec (n : Z) : all_digits (dec n).
Proof.
  unfold dec, NilZero.string_of_uint.
  destruct (N.to_uint (Z.to_N n)) eqn:E; try (rewrite <- E; apply all_digits_uint).
  repeat constructor; vm_compute; discriminate.
Qed.

Lemma all_digits_zfill (w : nat) (s : pystr) :
  all_digits s -> all_digits (zfill w s).
Proof.
  intros H. unfold zfill. apply Forall_app. split; [|assumption].
  apply Forall_forall. intros c Hc.
  apply list_elem_of_In, repeat_spec in Hc. subst.
  split; vm_compute; discriminate.
Qed.

Lemma all_digits_fixed (k : nat) (n : Z) : all_digits (fixed_digits k n).
Proof.
  revert n. induction k as [|k IH]; intros n; cbn [fixed_digits]; [constructor|].
  apply Forall_app. split; [apply IH|]. repeat constructor;
    pose proof (Z.mod_pos_bound n 10 ltac:(lia)); lia.
Qed.

Lemma length_dec_small (n : Z) : (0 <= n < 100)%Z -> (length (dec n) <= 2)%nat.
Proof.
  intros Hn.
  assert (Hall : forallb (fun k => (length (dec (Z.of_nat k)) <=? 2)%nat)
                   (seq 0 100) = true) by (vm_compute; reflexivity).
  rewrite forallb_forall in Hall.
  specialize (Hall (Z.to_nat n)).
  rewrite Z2Nat.id in Hall by lia.
  apply Nat.leb_le, Hall, in_seq. lia.
Qed.

Lemma length_zfill_2 (n : Z) :
  (0 <= n < 100)%Z -> length (zfill 2 (dec n)) = 2%nat.
Proof.
  intros Hn. pose proof (length_dec_small n Hn).
  unfold zfill. rewrite length_app, repeat_length. lia.
Qed.

Lemma round_half_even_bounds (q : Q) :
  (Qfloor q <= round_half_even q <= Qfloor q + 1)%Z.
Proof.
  unfold round_half_even.
  destruct (Qcompare _ _); [destruct (Z.even _)| |]; lia.
Qed.

Lemma Qfloor_lt (q : Q) (n : Z) : q < inject_Z n -> (Qfloor q < n)%Z.
Proof.
  intros H. pose proof (Qfloor_le q). rewrite Zlt_Qlt. lra.
Qed.

End DigitFacts.
Import DigitFacts.

Module LoopFacts.

Lemma srt_blocks_lookup (i : Z) (segs : list Segment) (k : nat)
    (seg : Segment) :
  segs !! k = Some seg ->
  srt_blocks i segs !! k
  = Some (srt_block (i + Z.of_nat k) (format_time_srt (seg_start seg))
            (format_time_srt (seg_end seg)) (seg_text seg)).
Proof.
  revert i k. induction segs as [|s rest IH]; intros i k; [discriminate|].
  destruct k as [|k]; cbn [srt_blocks].
  - intros [= ->]. now rewrite Z.add_0_r.
  - intros H. change (rest !! k = Some seg) in H.
    change (srt_blocks (i + 1) rest !! k
            = Some (srt_block (i + Z.of_nat (S k))
                      (format_time_srt (seg_start seg))
                      (format_time_srt (seg_end seg)) (seg_text seg))).
    rewrite (IH (i + 1) k H).
    replace (i + 1 + Z.of_nat k) with (i + Z.of_nat (S k)) by lia.
    reflexivity.
Qed.

End LoopFacts.
Import LoopFacts.

Module PathFacts.

Lemma take_while_split {A} (f : A -> bool) (l : list A) :
  exists r,
    l = take_while f l ++ r
    /\ match r with c :: _ => f c = false | [] => True end.
Proof.
  induction l as [|x l (r & E & Hr)]; cbn [take_while].
  - exists []. split; [reflexivity | exact I].
  - destruct (f x) eqn:Hx.
    + exists r. split; [cbn; congruence | exact Hr].
    + exists (x :: l). split; [reflexivity | exact Hx].
Qed.

Lemma take_while_Forall {A} (f : A -> bool) (l : list A) :
  Forall (fun c => f c = true) (take_while f l).
Proof.
  induction l as [|x l IH]; cbn [take_while]; [constructor|].
  destruct (f x) eqn:Hx; now constructor.
Qed.

Lemma take_while_stop {A} (f : A -> bool) (l1 : list A) (c : A)
    (l2 : list A) :
  Forall (fun c => f c = true) l1 -> f c = false ->
  take_while f (l1 ++ c :: l2) = l1.
Proof.
  intros H Hc. induction H as [|x l1 Hx _ IH]; cbn [take_while app].
  - now rewrite Hc.
  - now rewrite Hx, IH.
Qed.

Lemma take_while_all {A} (f : A -> bool) (l : list A) :
  Forall (fun c => f c = true) l -> take_while f l = l.
Proof.
  induction 1 as [|x l Hx _ IH]; cbn [take_while]; [reflexivity|].
  now rewrite Hx, IH.
Qed.

Lemma neq_negb_eqb (c d : N) : c <> d -> negb (c =? d)%N = true.
Proof. intros H. apply negb_true_iff, N.eqb_neq, H. Qed.

Lemma negb_eqb_neq (c d : N) : negb (c =? d)%N = true -> c <> d.
Proof. intros H. apply N.eqb_neq, negb_true_iff, H. Qed.

End PathFacts.
Import PathFacts.

Import StripFacts DigitFacts LoopFacts PathFacts.

(** ** The run as a whole *)

(** X1: no exception leaves the script.  Whatever the libraries do and
    whatever the widgets hold, every statement that can raise is inside the
    [try] of line 115 or inside the handler of a stage, and the run ends
    normally. *)
Theorem run_script_never_raises (env : Env) (inp : Input) (w : World) :
  (run_script env inp w).2 = inr tt.
Proof. run_cases w R; reflexivity. Qed.

(** X2: without an uploaded file, or without a press of the button, the run
    only redraws the page: no temporary file, no call of moviepy or
    whisper, no banner, no progress bar, and the disk and the cache are
    left as they were. *)
Theorem idle_run (env : Env) (inp : Input) (w : World) :
  uploaded_file inp = None \/ start_pressed inp = false ->
  let w' := (run_script env inp w).1 in
  files w' = files w /\ cache w' = cache w /\ next_obj w' = next_obj w
  /\ List.filter is_external (log w') = []
  /\ error_banners (log w') = []
  /\ progress_bar (log w') = Absent /\ status_text (log w') = Absent.
Proof.
  intros Hidle. run_cases w R; observe_more;
    try (destruct Hidle; congruence);
    repeat split; reflexivity.
Qed.

Lemma idle_run_witness :
  let w' := (run_script Scenario.env_no_audio Variant.no_upload initial_world).1 in
  uploaded_file Variant.no_upload = None
  /\ files w' = files initial_world
  /\ List.filter is_external (log w') = [].
Proof.
  cbv zeta. split; [reflexivity|].
  destruct (idle_run Scenario.env_no_audio Variant.no_upload initial_world
              (or_introl eq_refl)) as (H1 & _ & _ & H4 & _).
  split; assumption.
Defined.

(** X3: a run never deletes a file it did not create.  Every file on disk
    before the run is still there after it, every file there after it was
    there before or was created by the run, the names of the created files
    were not in use, and a run creates at most two files. *)
Theorem disk_frame (env : Env) (inp : Input) (w : World) :
  let w' := (run_script env inp w).1 in
  (forall p, p ∈ files w -> p ∈ files w')
  /\ (forall p, p ∈ files w' -> p ∈ files w \/ p ∈ created_files (log w'))
  /\ (forall p, p ∈ created_files (log w') -> p ∉ files w)
  /\ (length (created_files (log w')) <= 2)%nat.
Proof.
  run_cases w R; observe; repeat split; try lia; intros p Hp;
    rewrite ?in_both, ?elem_of_cons, ?elem_of_nil in *;
    try tauto;
    try (destruct Hp as [->| [->|[]]];
         auto using video_fresh, audio_not_in).
Qed.

Lemma disk_frame_witness :
  let w0 := (run_script Scenario.env_no_audio Scenario.input initial_world).1 in
  let w' := (run_script Scenario.env_inference_error Scenario.input w0).1 in
  0%nat ∈ files w0 /\ 0%nat ∈ files w'.
Proof.
  cbv zeta.
  assert (H0 : 0%nat
               ∈ files (run_script Scenario.env_no_audio Scenario.input
                          initial_world).1)
    by (apply (bool_decide_unpack _); vm_compute; exact I).
  split; [exact H0|].
  exact (proj1 (disk_frame Scenario.env_inference_error Scenario.input _)
           0%nat H0).
Defined.

(** X4: a run leaves exactly two more files on disk than it found when
    its call of moviepy fails, when its model load raises, or when its
    transcription has at least one segment (the loop of line 192 then stops
    on the [NameError] of line 193).  In each case both temporary files
    exist by then and the cleanup of lines 204-208 is not reached. *)
Theorem leak_grows (env : Env) (inp : Input) (w : World) :
  let w' := (run_script env inp w).1 in
  let l := log w' in
  (forall video_file,
     video_file ∈ open_calls l -> moviepy_clip env video_file <> ClipOk ->
     size (files w') = (size (files w) + 2)%nat)
  /\ (forall name e,
        name ∈ load_calls l -> whisper_load_model env name = Some e ->
        size (files w') = (size (files w) + 2)%nat)
  /\ (forall m p a result s rest,
        (m, p, a) ∈ transcribe_calls l ->
        model_transcribe env m p a = inr result ->
        res_segments result = Some (s :: rest) ->
        size (files w') = (size (files w) + 2)%nat).
Proof.
  run_cases w R; cbn [open_calls]; observe; (split; [|split]).
  all: try (intros v Hin He; one_call Hin; subst v;
            first [apply two_new_files | congruence]).
  all: try (intros name e' Hin He; one_call Hin; subst name;
            first [apply two_new_files | congruence]).
  all: try (intros m' p' a' r' s' rest' Hin He Hs; one_call Hin;
            injection Hin as -> -> ->;
            first [apply two_new_files | congruence]).
Qed.

Lemma leak_grows_witness :
  let w' := (run_script Scenario.env_no_audio Scenario.input initial_world).1 in
  0%nat ∈ open_calls (log w')
  /\ moviepy_clip Scenario.env_no_audio 0%nat <> ClipOk
  /\ size (files w') = (size (files initial_world) + 2)%nat.
Proof.
  cbv zeta.
  assert (Hin : 0%nat
                ∈ open_calls
                    (log (run_script Scenario.env_no_audio Scenario.input
                            initial_world).1))
    by (vm_compute; constructor).
  assert (Hclip : moviepy_clip Scenario.env_no_audio 0%nat <> ClipOk)
    by discriminate.
  split; [exact Hin|]. split; [exact Hclip|].
  exact (proj1 (leak_grows Scenario.env_no_audio Scenario.input initial_world)
           0%nat Hin Hclip).
Defined.

(** X5: the progress bar only moves forward through the stages 0, 10, 30,
    50, 70, 100, without skipping one, and it reaches 100 exactly in the
    runs in which the Result Presenter renders something. *)
Theorem progress_stages (env : Env) (inp : Input) (w : World) :
  let l := log (run_script env inp w).1 in
  progress_values l `prefix_of` [0; 10; 30; 50; 70; 100]
  /\ (progress_values l = [0; 10; 30; 50; 70; 100] <-> presented l = true).
Proof.
  run_cases w R; observe_more;
    (split; [by eexists|]);
    split; intros H; first [discriminate H | reflexivity].
Qed.

Lemma progress_stages_witness :
  let env := Scenario.env_returning Scenario.silence in
  let l := log (run_script env Scenario.input initial_world).1 in
  presented l = true /\ progress_values l = [0; 10; 30; 50; 70; 100].
Proof.
  cbv zeta.
  assert (Hp : presented
                 (log (run_script (Scenario.env_returning Scenario.silence)
                         Scenario.input initial_world).1) = true)
    by (vm_compute; reflexivity).
  split; [exact Hp|].
  exact (proj2 (proj2 (progress_stages
                         (Scenario.env_returning Scenario.silence)
                         Scenario.input initial_world)) Hp).
Defined.

(** ** What is rendered *)

(** X6: whenever inference returns a result, the text area and the TXT
    download are rendered with [result['text']] as it is, the download named
    [transcription_<language in lower case>.txt] with MIME type
    [text/plain]; this holds also in the runs that end in the outer handler
    afterwards, so that part of the results is shown next to the error
    banner. *)
Theorem text_is_surfaced (env : Env) (inp : Input) (w : World)
    (m : obj) (p : path) (a : TranscribeArgs) (result : TranscriptionResult) :
  let l := log (run_script env inp w).1 in
  (m, p, a) ∈ transcribe_calls l ->
  model_transcribe env m p a = inr result ->
  StTextArea (str "Transcribed Text") (res_text result) ∈ l
  /\ StDownloadButton (128196%N :: str " Download as TXT") (res_text result)
       (str "transcription_" ++ lower (selected_language inp) ++ str ".txt")
       (str "text/plain") ∈ l.
Proof.
  run_cases w R; observe; intros Hin Hr; one_call Hin;
    injection Hin as -> -> ->; rewrite Hr in *; try discriminate;
    match goal with H : inr _ = inr _ |- _ => injection H as -> end;
    split; repeat constructor.
Qed.

Lemma text_is_surfaced_witness :
  let env := Scenario.env_returning Scenario.one_segment in
  let l := log (run_script env Scenario.input initial_world).1 in
  outer_handler_fired l = true
  /\ StTextArea (str "Transcribed Text") (str " namaste") ∈ l
  /\ StDownloadButton (128196%N :: str " Download as TXT") (str " namaste")
       (str "transcription_" ++ lower (str "Hindi") ++ str ".txt")
       (str "text/plain") ∈ l.
Proof.
  cbv zeta. split; [vm_compute; reflexivity|].
  assert (Hin : (0%nat, 1%nat, Scenario.transcribe_args)
                ∈ transcribe_calls
                    (log (run_script
                            (Scenario.env_returning Scenario.one_segment)
                            Scenario.input initial_world).1))
    by (vm_compute; constructor).
  exact (text_is_surfaced (Scenario.env_returning Scenario.one_segment)
           Scenario.input initial_world _ _ _ Scenario.one_segment
           Hin eq_refl).
Defined.

(** X7: for a result without the key ['segments'] the run completes: the
    text area and the TXT download are the only result elements (no table,
    no subtitle download), no banner is shown, the progress bar stands at
    100 and the temporary files are gone. *)
Theorem result_without_segments (env : Env) (inp : Input) (w : World)
    (m : obj) (p : path) (a : TranscribeArgs) (result : TranscriptionResult) :
  let w' := (run_script env inp w).1 in
  (m, p, a) ∈ transcribe_calls (log w') ->
  model_transcribe env m p a = inr result ->
  res_segments result = None ->
  List.filter is_result_element (log w')
  = [StDownloadButton (128196%N :: str " Download as TXT") (res_text result)
       (str "transcription_" ++ lower (selected_language inp) ++ str ".txt")
       (str "text/plain");
     StTextArea (str "Transcribed Text") (res_text result)]
  /\ error_banners (log w') = []
  /\ files w' = files w
  /\ progress_bar (log w') = Showing 100.
Proof.
  run_cases w R; observe; intros Hin Hr Hs; one_call Hin;
    injection Hin as -> -> ->; rewrite Hr in *; try discriminate;
    match goal with H : inr _ = inr _ |- _ => injection H as -> end;
    try congruence; repeat split.
Qed.

Lemma result_without_segments_witness :
  let env := Scenario.env_returning Variant.text_only in
  let w' := (run_script env Scenario.input initial_world).1 in
  (0%nat, 1%nat, Scenario.transcribe_args) ∈ transcribe_calls (log w')
  /\ error_banners (log w') = []
  /\ progress_bar (log w') = Showing 100.
Proof.
  cbv zeta.
  assert (Hin : (0%nat, 1%nat, Scenario.transcribe_args)
                ∈ transcribe_calls
                    (log (run_script
                            (Scenario.env_returning Variant.text_only)
                            Scenario.input initial_world).1))
    by (vm_compute; constructor).
  split; [exact Hin|].
  destruct (result_without_segments
              (Scenario.env_returning Variant.text_only)
              Scenario.input initial_world _ _ _ Variant.text_only
              Hin eq_refl eq_refl) as (_ & Hb & _ & Hp).
  split; assumption.
Defined.

(** ** The stages inside a run *)

(** X8: a run calls the inference routine at most once, and when it does:
    extraction had succeeded, the audio passed is the temporary file created
    last, the model is the one the cache holds for the selected size, the
    language is the code of the selected language in [INDIC_LANGUAGES], and
    [fp16] and [verbose] are [False].  In particular no inference is made
    for a language name that is not in the table. *)
Theorem transcribe_call_of_a_run (env : Env) (inp : Input) (w : World) :
  let w' := (run_script env inp w).1 in
  transcribe_calls (log w') = []
  \/ exists m code audio video,
       transcribe_calls (log w')
       = [(m, audio,
           {| language := Some code; fp16 := false; verbose := Some false |})]
       /\ assoc (selected_language inp) INDIC_LANGUAGES = Some code
       /\ cache w' !! model_size inp = Some m
       /\ created_files (log w') = [audio; video]
       /\ moviepy_clip env video = ClipOk.
Proof.
  run_cases w R; observe;
    first [ by left
          | right; do 4 eexists;
            (split; [reflexivity|]);
            (split; [reflexivity|]);
            (split; [first [eassumption | apply lookup_insert_eq]|]);
            (split; [reflexivity | assumption]) ].
Qed.

(** X9: when the cache already holds a model for the selected size, the run
    loads nothing, leaves the cache as it is, and any inference it makes
    uses the cached model. *)
Theorem cached_model_is_used (env : Env) (inp : Input) (w : World) (m : obj) :
  cache w !! model_size inp = Some m ->
  let w' := (run_script env inp w).1 in
  load_calls (log w') = []
  /\ cache w' = cache w /\ next_obj w' = next_obj w
  /\ forall m' p a, (m', p, a) ∈ transcribe_calls (log w') -> m' = m.
Proof.
  intros Hc. run_cases w R; observe; cbn [cache] in Hc;
    try congruence;
    (repeat split; intros m' p' a' Hin; one_call Hin;
     injection Hin as -> -> ->; congruence).
Qed.

Lemma cached_model_is_used_witness :
  let env := Scenario.env_returning Scenario.silence in
  let w := (run_script env Scenario.input initial_world).1 in
  let w' := (run_script env Scenario.input w).1 in
  cache w !! model_size Scenario.input = Some 0%nat
  /\ load_calls (log w') = []
  /\ cache w' = cache w.
Proof.
  cbv zeta.
  assert (Hc : cache (run_script (Scenario.env_returning Scenario.silence)
                        Scenario.input initial_world).1
               !! model_size Scenario.input = Some 0%nat)
    by (vm_compute; reflexivity).
  split; [exact Hc|].
  destruct (cached_model_is_used (Scenario.env_returning Scenario.silence)
              Scenario.input _ 0%nat Hc) as (H1 & H2 & _).
  split; assumption.
Defined.

(** X11: when the model load of a run raises, the only banner is the one of
    the outer handler with the text of that exception appended, no
    inference is made, and nothing is added to the cache. *)
Theorem load_error_in_a_run (env : Env) (inp : Input) (w : World)
    (name : pystr) (e : exn) :
  let w' := (run_script env inp w).1 in
  name ∈ load_calls (log w') ->
  whisper_load_model env name = Some e ->
  error_banners (log w')
  = [StError (str "An error occurred: " ++ exn_msg e)]
  /\ transcribe_calls (log w') = []
  /\ cache w' = cache w.
Proof.
  run_cases w R; observe; intros Hin He; one_call Hin; subst;
    rewrite He in *; try discriminate;
    match goal with H : Some _ = Some _ |- _ => injection H as -> end;
    repeat split.
Qed.

Lemma load_error_in_a_run_witness :
  let w' :=
    (run_script Variant.env_load_error Scenario.input initial_world).1 in
  str "small" ∈ load_calls (log w')
  /\ error_banners (log w')
     = [StError (str "An error occurred: " ++ str "out of memory")]
  /\ transcribe_calls (log w') = [].
Proof.
  cbv zeta.
  assert (Hin : str "small"
                ∈ load_calls
                    (log (run_script Variant.env_load_error Scenario.input
                            initial_world).1))
    by (vm_compute; constructor).
  split; [exact Hin|].
  destruct (load_error_in_a_run Variant.env_load_error Scenario.input
              initial_world _ Scenario.out_of_memory Hin eq_refl)
    as (H1 & H2 & _).
  split; assumption.
Defined.

(** The body of lines 66-70 ends on the exception [clip_error] names. *)
Lemma write_audio_result (env : Env) (video_file temp_audio_path : path)
    (w : World) :
  (write_audio env video_file temp_audio_path w).2
  = match clip_error (moviepy_clip env video_file) with
    | Some e => inl e
    | None => inr tt
    end.
Proof.
  unfold write_audio, bind, emit, raise.
  destruct (moviepy_clip env video_file); reflexivity.
Qed.

(** X20: what the page shows after a failure, by the call that failed.
    When the call of moviepy of a run fails, the only banner is "Error
    extracting audio: " with the text of that exception, and the progress
    bar and the status line stay at 30% and "Extracting audio from
    video...".  When the inference of a run raises, the only banner is
    "Error during transcription: " with the text of that exception, and
    they stay at 70% and "Transcribing audio...".  When the model load of a
    run raises, the only banner is "An error occurred: " with the text of
    that exception, and both are cleared. *)
Theorem failure_display_by_cause (env : Env) (inp : Input) (w : World) :
  let l := log (run_script env inp w).1 in
  (forall video_file e,
     video_file ∈ open_calls l ->
     clip_error (moviepy_clip env video_file) = Some e ->
     error_banners l = [StError (str "Error extracting audio: " ++ exn_msg e)]
     /\ progress_bar l = Showing 30
     /\ status_text l
        = Showing (127925%N :: str " Extracting audio from video..."))
  /\ (forall m p a e,
        (m, p, a) ∈ transcribe_calls l -> model_transcribe env m p a = inl e ->
        error_banners l
        = [StError (str "Error during transcription: " ++ exn_msg e)]
        /\ progress_bar l = Showing 70
        /\ status_text l = Showing (127919%N :: str " Transcribing audio..."))
  /\ (forall name e,
        name ∈ load_calls l -> whisper_load_model env name = Some e ->
        error_banners l = [StError (str "An error occurred: " ++ exn_msg e)]
        /\ progress_bar l = Cleared /\ status_text l = Cleared).
Proof.
  run_cases w R; cbn [open_calls]; observe; (split; [|split]).
  all: try (intros v e' Hin He; one_call Hin; subst v;
            rewrite Hclip in He; cbn [clip_error] in He;
            first [discriminate He | injection He as <-]; repeat split).
  all: try (intros m' p' a' e' Hin He; one_call Hin;
            injection Hin as -> -> ->; rewrite Htr in He;
            first [discriminate He | injection He as <-]; repeat split).
  all: try (intros name e' Hin He; one_call Hin; subst name;
            rewrite Hload in He;
            first [discriminate He | injection He as <-]; repeat split).
Qed.

Lemma failure_display_by_cause_witness :
  let env := Scenario.env_inference_error in
  let l := log (run_script env Scenario.input initial_world).1 in
  (0%nat, 1%nat, Scenario.transcribe_args) ∈ transcribe_calls l
  /\ model_transcribe env 0%nat 1%nat Scenario.transcribe_args
     = inl Scenario.out_of_memory
  /\ error_banners l
     = [StError (str "Error during transcription: " ++ str "out of memory")]
  /\ progress_bar l = Showing 70.
Proof.
  cbv zeta.
  assert (Hin : (0%nat, 1%nat, Scenario.transcribe_args)
                ∈ transcribe_calls
                    (log (run_script Scenario.env_inference_error
                            Scenario.input initial_world).1))
    by (vm_compute; constructor).
  split; [exact Hin|]. split; [reflexivity|].
  destruct (proj1 (proj2 (failure_display_by_cause
                            Scenario.env_inference_error Scenario.input
                            initial_world))
              0%nat 1%nat Scenario.transcribe_args Scenario.out_of_memory
              Hin eq_refl) as (H1 & H2 & _).
  split; assumption.
Defined.

(** X12: the Audio Extractor closes the clip only on the way it planned.
    When opening the video or writing the audio fails, or the video has no
    audio track, neither [video.close()] nor [audio.close()] is called;
    when [video.close()] raises, [audio.close()] is not called.  The cache
    is never touched.  For a video without audio track the banner carries
    the [AttributeError] on [None] and nothing is written to the temporary
    file. *)
Theorem extraction_leaves_clip_open (env : Env) (video_file : path)
    (w : World) :
  let w' := (extract_audio_from_video env video_file w).1 in
  let closes := List.filter is_close (log w') in
  cache w' = cache w /\ next_obj w' = next_obj w
  /\ match moviepy_clip env video_file with
     | ClipOpenRaises _ | ClipNoAudio | ClipWriteRaises _ =>
         closes = List.filter is_close (log w)
     | ClipVideoCloseRaises _ =>
         closes = MoviepyVideoClose :: List.filter is_close (log w)
     | ClipAudioCloseRaises _ | ClipOk =>
         closes
         = MoviepyAudioClose :: MoviepyVideoClose
           :: List.filter is_close (log w)
     end
  /\ (moviepy_clip env video_file = ClipNoAudio ->
      head (log w')
      = Some (StError
                (str "Error extracting audio: 'NoneType' object has no attribute 'write_audiofile'"))
      /\ List.filter is_external (log w')
         = MoviepyOpen video_file
           :: OsTempFile (fresh (files w)) (str ".wav")
           :: List.filter is_external (log w)).
Proof.
  cbv zeta.
  unfold extract_audio_from_video, write_audio, named_temporary_file,
    try_except, bind, emit, raise, ret.
  destruct (moviepy_clip env video_file);
    cbn [fst snd set_log set_files log files cache next_obj globals
         head List.filter is_close is_external];
    repeat split; try discriminate.
Qed.

Lemma extraction_leaves_clip_open_witness :
  let w' :=
    (extract_audio_from_video Scenario.env_no_audio 0%nat initial_world).1 in
  moviepy_clip Scenario.env_no_audio 0%nat = ClipNoAudio
  /\ List.filter is_external (log w')
     = [MoviepyOpen 0%nat; OsTempFile (fresh (files initial_world)) (str ".wav")].
Proof.
  cbv zeta. split; [reflexivity|].
  exact (proj2 (proj2 (proj2 (proj2 (extraction_leaves_clip_open
                                       Scenario.env_no_audio 0%nat
                                       initial_world))) eq_refl)).
Defined.

(** ** Strings, times and names *)

(** X13: [strip], applied to the text of every table row and subtitle
    block, removes a prefix and a suffix made of whitespace only, and what
    is left neither starts nor ends with whitespace; stripping twice
    changes nothing. *)
Theorem strip_trims (s : pystr) :
  (exists pre post,
     s = pre ++ strip s ++ post /\ all_space pre /\ all_space post)
  /\ starts_clean (strip s)
  /\ starts_clean (rev (strip s))
  /\ strip (strip s) = strip s.
Proof.
  unfold strip.
  destruct (lstrip_split s) as (pre & E1 & Hpre).
  destruct (rstrip_split (lstrip s)) as (post & E2 & Hpost).
  pose proof (rstrip_keeps_start _ (lstrip_clean s)) as Hstart.
  pose proof (rstrip_clean (lstrip s)) as Hend.
  split; [|split; [exact Hstart | split; [exact Hend|]]].
  - exists pre, post. split; [|split; assumption].
    rewrite <- E2. exact E1.
  - rewrite (lstrip_id _ Hstart). now apply rstrip_id.
Qed.

(** X14: a time of the segment table, for every time from zero up to [2^53]
    seconds: the first field is the whole number of minutes, not wrapped
    at the hour (61 for 3661.5 s), and the second is the number of seconds
    cut to an integer, so it stays between 0 and 59: unlike the subtitle
    format, the table never shows 60 seconds. *)
Theorem format_mm_ss_fields (t : Q) :
  (0 <= t)%Q -> (t < inject_Z (2 ^ 53))%Q ->
  let seconds := Qfloor (t - inject_Z (60 * Qfloor (t / 60))) in
  format_mm_ss t
  = zfill 2 (dec (Qfloor (t / 60))) ++ str ":" ++ zfill 2 (dec seconds)
  /\ (0 <= seconds < 60)%Z.
Proof.
  intros H0 H1. cbv zeta. unfold format_mm_ss.
  change 60%Q with (inject_Z 60).
  destruct (Qfloor_bounds t 60 ltac:(lia)) as [Hs1 Hs2].
  pose proof (Qfloor_nonneg _ (Qdiv_nonneg t 60 ltac:(lia) H0)) as Hk0.
  pose proof (float_rem_exact t 60 ltac:(lia) H0) as Er.
  rewrite (py_int_comp _ _ (float_floor_div_exact t 60 ltac:(lia) H0 H1)).
  rewrite py_int_nonneg, Qfloor_Z, (format_d_nonneg 2 _ Hk0)
    by (change 0%Q with (inject_Z 0); rewrite <- Zle_Qle; exact Hk0).
  set (k := Qfloor (t / inject_Z 60)) in *.
  assert (Es : (float_rem t (inject_Z 60) == t - inject_Z (60 * k))%Q).
  { rewrite Er, inject_Z_mult. ring. }
  assert (Hrange : (0 <= t - inject_Z (60 * k))%Q
                   /\ (t - inject_Z (60 * k) < 60)%Q).
  { rewrite inject_Z_mult. change (inject_Z 60) with 60%Q in *. split; lra. }
  rewrite (py_int_comp _ _ Es), py_int_nonneg by tauto.
  pose proof (Qfloor_nonneg _ (proj1 Hrange)) as Hs0.
  rewrite (format_d_nonneg 2 _ Hs0).
  split; [reflexivity|]. split; [exact Hs0|].
  apply Qfloor_lt. tauto.
Qed.

Lemma format_mm_ss_fields_witness :
  (0 <= float_lit 36615 10)%Q
  /\ (float_lit 36615 10 < inject_Z (2 ^ 53))%Q
  /\ format_mm_ss (float_lit 36615 10) = str "61:01".
Proof.
  assert (H0 : (0 <= float_lit 36615 10)%Q)
    by (vm_compute; intros H; discriminate H).
  assert (H1 : (float_lit 36615 10 < inject_Z (2 ^ 53))%Q)
    by (vm_compute; reflexivity).
  split; [exact H0|]. split; [exact H1|].
  rewrite (proj1 (format_mm_ss_fields _ H0 H1)).
  vm_compute. reflexivity.
Defined.

(** X15: below one hundred hours [format_time_srt] always returns twelve
    characters of the form [HH:MM:SS,mmm]: two, two, two and three decimal
    digits around the two colons and the comma. *)
Theorem format_time_srt_shape (x : Q) :
  (0 <= x)%Q -> (x < 360000)%Q ->
  exists h m s f,
    format_time_srt x = h ++ str ":" ++ m ++ str ":" ++ s ++ str "," ++ f
    /\ length h = 2%nat /\ length m = 2%nat /\ length s = 2%nat
    /\ length f = 3%nat
    /\ all_digits (h ++ m ++ s ++ f).
Proof.
  intros H0 H1.
  rewrite format_time_srt_exact
    by (try change (inject_Z (2 ^ 53)) with 9007199254740992%Q; lra).
  unfold srt_time_spec.
  change 3600%Q with (inject_Z 3600). change 60%Q with (inject_Z 60).
  destruct (Qfloor_bounds x 3600 ltac:(lia)) as [Hh1 Hh2].
  destruct (Qfloor_bounds x 60 ltac:(lia)) as [Hs1 Hs2].
  pose proof (Qfloor_nonneg _ (Qdiv_nonneg x 3600 ltac:(lia) H0)) as Hh0.
  set (h := Qfloor (x / inject_Z 3600)) in *.
  set (k := Qfloor (x / inject_Z 60)) in *.
  assert (Hh : (h < 100)%Z).
  { apply Qfloor_lt. apply Qlt_shift_div_r; [reflexivity|].
    change (inject_Z 100 * inject_Z 3600)%Q with 360000%Q. exact H1. }
  set (r := (x - inject_Z (3600 * h))%Q).
  assert (Hr : (0 <= r)%Q /\ (r < 3600)%Q).
  { unfold r. rewrite inject_Z_mult.
    change (inject_Z 3600) with 3600%Q in *. split; lra. }
  pose proof (Qfloor_nonneg _ (Qdiv_nonneg r 60 ltac:(lia) (proj1 Hr))) as Hm0.
  assert (Hm : (Qfloor (r / inject_Z 60) < 60)%Z).
  { apply Qfloor_lt. apply Qlt_shift_div_r; [reflexivity|].
    change (inject_Z 60 * inject_Z 60)%Q with 3600%Q. tauto. }
  set (secs := ((x - inject_Z (60 * k)) * 1000)%Q).
  assert (Hsecs : (0 <= secs)%Q /\ (secs < 60000)%Q).
  { unfold secs. rewrite inject_Z_mult.
    change (inject_Z 60) with 60%Q in *. split; lra. }
  pose proof (round_half_even_bounds secs) as Hms.
  pose proof (Qfloor_nonneg _ (proj1 Hsecs)) as Hf0.
  assert (Hf : (Qfloor secs < 60000)%Z) by (apply Qfloor_lt; tauto).
  set (ms := round_half_even secs) in *.
  assert (Hip : (0 <= ms / 1000 < 100)%Z).
  { split; [apply Z.div_pos; lia|]. apply Z.div_lt_upper_bound; lia. }
  exists (zfill 2 (dec h)), (zfill 2 (dec (Qfloor (r / inject_Z 60)))),
    (zfill 2 (dec (ms / 1000))), (fixed_digits 3 ms).
  split; [reflexivity|].
  rewrite !length_zfill_2, length_fixed_digits by lia.
  repeat split.
  unfold all_digits. rewrite !Forall_app.
  repeat split;
    first [ apply all_digits_zfill, all_digits_dec | apply all_digits_fixed ].
Qed.

Lemma format_time_srt_shape_witness :
  (0 <= float_lit 73220375 10000)%Q
  /\ (float_lit 73220375 10000 < 360000)%Q
  /\ exists h m s f,
       format_time_srt (float_lit 73220375 10000)
       = h ++ str ":" ++ m ++ str ":" ++ s ++ str "," ++ f
       /\ length h = 2%nat /\ length m = 2%nat /\ length s = 2%nat
       /\ length f = 3%nat
       /\ all_digits (h ++ m ++ s ++ f).
Proof.
  assert (H0 : (0 <= float_lit 73220375 10000)%Q)
    by (vm_compute; intros H; discriminate H).
  assert (H1 : (float_lit 73220375 10000 < 360000)%Q)
    by (vm_compute; reflexivity).
  split; [exact H0|]. split; [exact H1|].
  exact (format_time_srt_shape _ H0 H1).
Defined.

(** X16: the loop of lines 191-195, run in a namespace where
    [format_time_srt] is bound (which is not the case where the script
    calls it), leaves the world as it is and appends one block per
    segment, in segment order, the block of the segment at index [k]
    being the number [i + k], the two times around [ --> ], the stripped
    text and an empty line. *)
Theorem srt_loop_builds_blocks (i : Z) (segs : list Segment) (acc : pystr)
    (w : World) :
  "format_time_srt" ∈ globals w ->
  srt_loop i segs acc w = (w, inr (acc ++ concat (srt_blocks i segs)))
  /\ length (srt_blocks i segs) = length segs
  /\ forall k seg,
       segs !! k = Some seg ->
       srt_blocks i segs !! k
       = Some (dec (i + Z.of_nat k) ++ nl
               ++ format_time_srt (seg_start seg) ++ str " --> "
               ++ format_time_srt (seg_end seg) ++ nl
               ++ strip (seg_text seg) ++ nl ++ nl).
Proof.
  intros H. split; [|split].
  - apply srt_loop_defined. now apply bool_decide_eq_true_2.
  - apply srt_blocks_length.
  - intros k seg Hk. rewrite (srt_blocks_lookup _ _ _ _ Hk). reflexivity.
Qed.

Lemma srt_loop_builds_blocks_witness :
  "format_time_srt" ∈ globals Variant.world_with_format_time_srt
  /\ srt_loop 1 [Scenario.namaste] [] Variant.world_with_format_time_srt
     = (Variant.world_with_format_time_srt,
        inr ([] ++ concat (srt_blocks 1 [Scenario.namaste]))).
Proof.
  assert (H : "format_time_srt" ∈ globals Variant.world_with_format_time_srt)
    by (apply (bool_decide_unpack _); vm_compute; exact I).
  split; [exact H|].
  exact (proj1 (srt_loop_builds_blocks 1 [Scenario.namaste] []
                  Variant.world_with_format_time_srt H)).
Defined.

(** X17: the suffix given to the temporary video file,
    [os.path.splitext(name)[1]], is an end of the uploaded name, and is
    either empty or a dot followed by characters that are neither a dot
    nor a slash. *)
Theorem splitext_ext_suffix (name : pystr) :
  (exists root, name = root ++ splitext_ext name)
  /\ (splitext_ext name = []
      \/ exists e,
           splitext_ext name = 46%N :: e
           /\ Forall (fun c => c <> 46%N /\ c <> 47%N) e).
Proof.
  unfold splitext_ext. cbv zeta.
  set (not_sep := fun c : N => negb (c =? 47)%N).
  set (not_dot := fun c : N => negb (c =? 46)%N).
  rewrite rev_involutive.
  destruct (take_while_split not_sep (rev name)) as (r1 & E1 & _).
  pose proof (take_while_Forall not_sep (rev name)) as Hsep.
  set (tw := take_while not_sep (rev name)) in *.
  destruct (take_while_split not_dot tw) as (r2 & E2 & Hr2).
  pose proof (take_while_Forall not_dot tw) as Hdot.
  set (er := take_while not_dot tw) in *.
  destruct (_ && _) eqn:Hcond.
  - apply andb_true_iff in Hcond as [Hlen _].
    apply Nat.ltb_lt in Hlen. rewrite length_rev in Hlen.
    destruct r2 as [|c r'].
    { rewrite app_nil_r in E2. rewrite <- E2 in Hlen. lia. }
    assert (c = 46%N) as ->.
    { unfold not_dot in Hr2. apply negb_false_iff, N.eqb_eq in Hr2.
      exact Hr2. }
    split.
    + exists (rev r1 ++ rev r').
      rewrite <- (rev_involutive name), E1, E2.
      rewrite !rev_app_distr. cbn [rev]. rewrite <- !app_assoc. reflexivity.
    + right. exists (rev er). split; [reflexivity|].
      apply Forall_rev. rewrite Forall_forall. intros x Hx. split.
      * rewrite Forall_forall in Hdot. apply negb_eqb_neq, (Hdot x Hx).
      * rewrite Forall_forall in Hsep. apply negb_eqb_neq, (Hsep x).
        rewrite E2. apply elem_of_app. now left.
  - split; [exists name; now rewrite app_nil_r | now left].
Qed.

(** X18: for a file name made of a stem without slash that has a character
    other than a dot, a dot, and one of the accepted types of the uploader
    (line 93), the temporary video file gets exactly that extension. *)
Theorem upload_extension_kept (stem ext : pystr) :
  ext ∈ UPLOAD_TYPES ->
  Forall (fun c => c <> 47%N) stem ->
  Exists (fun c => c <> 46%N) stem ->
  splitext_ext (stem ++ 46%N :: ext) = 46%N :: ext.
Proof.
  intros Hext Hstem Hdot.
  assert (Hclean : Forall (fun c => c <> 46%N /\ c <> 47%N) ext).
  { assert (Hall : Forall (Forall (fun c => c <> 46%N /\ c <> 47%N))
                     UPLOAD_TYPES)
      by (apply (bool_decide_unpack _); vm_compute; exact I).
    rewrite Forall_forall in Hall. exact (Hall _ Hext). }
  unfold splitext_ext. cbv zeta.
  set (not_sep := fun c : N => negb (c =? 47)%N).
  set (not_dot := fun c : N => negb (c =? 46)%N).
  assert (Erev : rev (stem ++ 46%N :: ext) = rev ext ++ 46%N :: rev stem).
  { rewrite rev_app_distr. cbn [rev]. now rewrite <- app_assoc. }
  assert (Hall_sep : Forall (fun c => not_sep c = true)
                       (rev (stem ++ 46%N :: ext))).
  { apply Forall_rev, Forall_app. split.
    - eapply Forall_impl; [exact Hstem|]. intros c Hc. now apply neq_negb_eqb.
    - constructor; [reflexivity|].
      eapply Forall_impl; [exact Hclean|]. intros c [_ Hc].
      now apply neq_negb_eqb. }
  rewrite (take_while_all _ _ Hall_sep), rev_involutive, Erev.
  rewrite take_while_stop;
    [ | apply Forall_rev; eapply Forall_impl; [exact Hclean|];
        intros c [Hc _]; now apply neq_negb_eqb
      | reflexivity ].
  assert (Edrop : drop (S (length (rev ext))) (rev ext ++ 46%N :: rev stem)
                  = rev stem).
  { replace (S (length (rev ext))) with (length (rev ext ++ [46%N]))
      by (rewrite length_app; cbn; lia).
    replace (rev ext ++ 46%N :: rev stem)
      with ((rev ext ++ [46%N]) ++ rev stem) by now rewrite <- app_assoc.
    apply drop_app_length. }
  rewrite Edrop, !rev_involutive.
  assert (Hlt : (length (rev ext)
                 <? length (rev (rev ext ++ 46%N :: rev stem)))%nat = true).
  { apply Nat.ltb_lt. rewrite !length_rev, length_app, !length_rev. cbn [length]. lia. }
  assert (Hex : existsb not_dot stem = true).
  { apply existsb_exists. apply Exists_exists in Hdot as (c & Hc & Hne).
    exists c. split; [now apply list_elem_of_In | now apply neq_negb_eqb]. }
  now rewrite Hlt, Hex.
Qed.

Lemma upload_extension_kept_witness :
  str "mp4" ∈ UPLOAD_TYPES
  /\ splitext_ext (str "my.clip" ++ 46%N :: str "mp4") = 46%N :: str "mp4".
Proof.
  assert (Hext : str "mp4" ∈ UPLOAD_TYPES) by (vm_compute; constructor).
  split; [exact Hext|].
  apply (upload_extension_kept (str "my.clip") (str "mp4") Hext).
  - apply (bool_decide_unpack _). vm_compute. exact I.
  - apply (bool_decide_unpack _). vm_compute. exact I.
Defined.


